(** * Session controller of the mental-health chat

    A shallow embedding of the conversational controller of the repository:
    the service object [mentalHealthService] and the image helper
    [imageAnalysisService] of the AI services file, and the two handlers
    [startMentalHealthMode] and [sendMessage] of the index page that drive
    them.  Asynchronous code is written in a small monad [Async] that threads
    the browser clock and the throttle fields of the service, accumulates a
    log of observable effects, and can reject with a thrown value.  Sessions
    ([step], [run]) run the handlers one at a time; pages ([act], [play])
    suspend them at their awaits and let them overlap. *)

From Stdlib Require Import ZArith NArith List String Ascii Bool Lia.
Import ListNotations.
Local Open Scope Z_scope.

(** ** JavaScript strings

    A string is its sequence of UTF-16 code units. *)

Definition jsstring := list N.

Definition str (s : string) : jsstring :=
  map N_of_ascii (list_ascii_of_string s).

Definition nl : jsstring := [10%N].
Definition dquote : jsstring := [34%N].

(** White space and line terminators of ECMAScript, the code units that
    [String.prototype.trim] strips. *)
Definition isWhiteSpace (c : N) : bool :=
  (existsb (N.eqb c)
     [9; 10; 11; 12; 13; 32; 160; 5760; 8232; 8233; 8239; 8287; 12288; 65279]%N
   || ((8192 <=? c) && (c <=? 8202))%N)%bool.

Fixpoint trimStart (s : jsstring) : jsstring :=
  match s with
  | [] => []
  | c :: r => if isWhiteSpace c then trimStart r else s
  end.

Definition trimEnd (s : jsstring) : jsstring := rev (trimStart (rev s)).

Definition trim (s : jsstring) : jsstring := trimEnd (trimStart s).

Fixpoint startsWith (needle hay : jsstring) : bool :=
  match needle, hay with
  | [], _ => true
  | _ :: _, [] => false
  | n :: ns, h :: hs => (N.eqb n h && startsWith ns hs)%bool
  end.

(** [hay.includes(needle)] *)
Fixpoint includes (hay needle : jsstring) : bool :=
  match hay with
  | [] => startsWith needle []
  | _ :: r => (startsWith needle hay || includes r needle)%bool
  end.

(** JavaScript truthiness of a string: the empty string is falsy. *)
Definition truthy (s : jsstring) : bool :=
  match s with [] => false | _ :: _ => true end.

(** ** Data *)

(** The two values of [role] the page ever writes. *)
Inductive Role := user | assistant.

Definition Role_eqb (a b : Role) : bool :=
  match a, b with
  | user, user | assistant, assistant => true
  | _, _ => false
  end.

(** [{role, content, timestamp?}]: the chat state keeps a timestamp, the
    objects handed to the service carry none. *)
Record Message := mkMessage {
  role : Role;
  content : jsstring;
  timestamp : option Z
}.

(** The [File] held in [chatImage]. *)
Record File := mkFile {
  file_name : jsstring;
  file_type : jsstring
}.

(** A thrown value: whether it is an [Error] instance, and its [message]. *)
Record Thrown := mkThrown {
  instanceofError : bool;
  message : jsstring
}.

Inductive Settled (A : Type) :=
| Fulfilled (a : A)
| Rejected (e : Thrown).
Arguments Fulfilled {A} a.
Arguments Rejected {A} e.

(** What the hosted model answers to one [chatCompletion] request: how long
    it takes, and either the text of [choices[0].message.content] or the
    value the client throws (network fault, HTTP status, malformed payload). *)
Record Reply := mkReply {
  latency : N;
  outcome : Settled jsstring
}.

(** The environment of one turn: how late the cooldown timer fires, and the
    answers to the image-sentiment request and to the completion request. *)
Record Net := mkNet {
  jitter : N;
  sentimentReply : Reply;
  completionReply : Reply
}.

(** The clock of the browser and the two throttle fields of
    [mentalHealthService]. *)
Record World := mkWorld {
  clock : Z;
  _lastRequestTime : Z;
  _minRequestInterval : Z
}.

Inductive Endpoint := Opening | ImageSentiment | Completion.

(** Observable effects, in the order they happen.  [Stamp prev interval t]
    is the assignment [_lastRequestTime = Date.now()] at time [t], with the
    value it overwrites and the interval in force. *)
Inductive Event :=
| Sleep (ms : Z)
| Stamp (prev interval t : Z)
| Call (who : Endpoint) (t : Z) (prompt : jsstring)
| Toast (title : jsstring).

(** ** The monad of asynchronous code *)

Definition Async (A : Type) : Type :=
  World -> Settled A * World * list Event.

Definition ret {A} (a : A) : Async A :=
  fun w => (Fulfilled a, w, []).

Definition bind {A B} (m : Async A) (f : A -> Async B) : Async B :=
  fun w =>
    match m w with
    | (Fulfilled a, w1, l1) =>
        let '(r, w2, l2) := f a w1 in (r, w2, l1 ++ l2)
    | (Rejected e, w1, l1) => (Rejected e, w1, l1)
    end.

Definition throw {A} (e : Thrown) : Async A :=
  fun w => (Rejected e, w, []).

(** [try { m } catch (e) { h e }] *)
Definition tryCatch {A} (m : Async A) (h : Thrown -> Async A) : Async A :=
  fun w =>
    match m w with
    | (Fulfilled a, w1, l1) => (Fulfilled a, w1, l1)
    | (Rejected e, w1, l1) =>
        let '(r, w2, l2) := h e w1 in (r, w2, l1 ++ l2)
    end.

Definition emit (ev : Event) : Async unit :=
  fun w => (Fulfilled tt, w, [ev]).

Definition reads {A} (f : World -> A) : Async A :=
  fun w => (Fulfilled (f w), w, []).

Declare Scope async_scope.
Delimit Scope async_scope with async.
Notation "x <- m ;; k" := (bind m (fun x => k))
  (at level 61, m at next level, right associativity) : async_scope.
Notation "m ;; k" := (bind m (fun _ => k))
  (at level 61, right associativity) : async_scope.
Local Open Scope async_scope.

Definition value {A} (x : Settled A * World * list Event) : Settled A :=
  fst (fst x).
Definition world {A} (x : Settled A * World * list Event) : World :=
  snd (fst x).
Definition trace {A} (x : Settled A * World * list Event) : list Event :=
  snd x.

(** ** Primitives of the platform *)

Definition Date_now : Async Z := reads clock.

(** [await new Promise(resolve => setTimeout(resolve, ms))]: the timer fires
    no earlier than [ms] from now. *)
Definition setTimeout (ms : Z) (late : N) : Async unit :=
  fun w =>
    (Fulfilled tt,
     mkWorld (clock w + ms + Z.of_N late) (_lastRequestTime w) (_minRequestInterval w),
     [Sleep ms]).

(** [await hfClient.chatCompletion({... messages: [{role: "user", content: prompt}] ...})]:
    the request is logged with the time it is issued at and its prompt (the
    model name, [max_tokens] and [temperature] are constants of each call
    site and play no part below). *)
Definition chatCompletion (who : Endpoint) (prompt : jsstring) (r : Reply)
  : Async jsstring :=
  fun w =>
    (outcome r,
     mkWorld (clock w + Z.of_N (latency r)) (_lastRequestTime w) (_minRequestInterval w),
     [Call who (clock w) prompt]).

Definition toast (title : jsstring) : Async unit := emit (Toast title).

(** ** Throttle *)

(** The wait computed by [_enforceRequestCooldown], as a function of the
    three numbers it reads. *)
Definition cooldownWait (now lastRequestTime minRequestInterval : Z) : Z :=
  let timeSinceLastRequest := now - lastRequestTime in
  if timeSinceLastRequest <? minRequestInterval
  then minRequestInterval - timeSinceLastRequest
  else 0.

Definition _enforceRequestCooldown (late : N) : Async unit :=
  now <- Date_now ;;
  last <- reads _lastRequestTime ;;
  interval <- reads _minRequestInterval ;;
  let timeSinceLastRequest := now - last in
  (if timeSinceLastRequest <? interval
   then
     let waitTime := interval - timeSinceLastRequest in
     setTimeout waitTime late
   else ret tt) ;;
  fun w =>
    (Fulfilled tt,
     mkWorld (clock w) (clock w) (_minRequestInterval w),
     [Stamp (_lastRequestTime w) (_minRequestInterval w) (clock w)]).

(** ** Image services *)

(** [computerVisionService.analyzeImage] on a [File]: a local description
    built from the name and the type of the file; only its caption is kept. *)
Definition photoCaption (imageInput : File) : jsstring :=
  let fileInfo := if truthy (file_name imageInput) then file_name imageInput else [] in
  let fileInfo :=
    if truthy (file_type imageInput)
    then fileInfo ++ str " (" ++ file_type imageInput ++ str ")"
    else fileInfo in
  str "A photo" ++ (if truthy fileInfo then str " of " ++ fileInfo else []).

Definition analyzeImage (imageInput : File) : Async jsstring :=
  ret (photoCaption imageInput).

Record ImageAnalysis := mkImageAnalysis {
  sentiment : jsstring;
  caption : jsstring
}.

Definition sentimentPrompt : jsstring :=
  nl ++ str "        You're analyzing a photo of a person. Without seeing the actual image, provide a general, "
  ++ nl ++ str "        compassionate analysis of how people might be feeling in different situations."
  ++ nl ++ str "        "
  ++ nl ++ str "        Include:"
  ++ nl ++ str "        - Range of possible emotions people commonly experience (both positive and negative)"
  ++ nl ++ str "        - Reminder that visual cues can sometimes be misinterpreted"
  ++ nl ++ str "        - Encouragement to share how they're actually feeling in their own words"
  ++ nl ++ str "        "
  ++ nl ++ str "        Keep your response brief (2-3 sentences) and non-judgmental."
  ++ nl ++ str "      ".

(** The annotation [analyzeImageSentiment] returns from its own [catch]. *)
Definition sentimentFallback : ImageAnalysis :=
  mkImageAnalysis
    (str "I can see you've shared a photo. Visual expressions can reflect many emotions - from joy to concern. I'd love to hear how you're actually feeling in your own words, as that's more reliable than my interpretation of an image.")
    (str "A photo").

Definition analyzeImageSentiment (imageInput : File) (r : Reply)
  : Async ImageAnalysis :=
  tryCatch
    (visionResult <- analyzeImage imageInput ;;
     text <- chatCompletion ImageSentiment sentimentPrompt r ;;
     ret (mkImageAnalysis text visionResult))
    (fun _ => ret sentimentFallback).

(** ** [mentalHealthService] *)

Definition openingPrompt : jsstring :=
  str "Act as an AI mental health assistant. Your purpose is to provide supportive conversation, "
  ++ nl ++ str "            preliminary assessment, and general wellness advice. Begin by introducing yourself and asking 2-3 "
  ++ nl ++ str "            gentle screening questions about how the person is feeling today, their sleep patterns, and stress levels. "
  ++ nl ++ str "            Keep your responses compassionate, non-judgmental, and concise (under 100 words). After initial questions, "
  ++ nl ++ str "            suggest that a photo could help you better understand their current state, but make this optional. "
  ++ nl ++ str "            Important: Always clarify you are not a replacement for professional mental health services.".

Definition startConversation (r : Reply) : Async (list Message) :=
  tryCatch
    (initialMessage <- chatCompletion Opening openingPrompt r ;;
     ret [mkMessage assistant initialMessage None])
    (fun error =>
       (if (instanceofError error && includes (message error) (str "429"))%bool
        then toast (str "Service Temporarily Busy")
        else toast (str "Service Error")) ;;
       throw error).

Fixpoint findIndex_from {A} (p : A -> nat -> list A -> bool)
    (arr rest : list A) (i : nat) : option nat :=
  match rest with
  | [] => None
  | x :: r => if p x i arr then Some i else findIndex_from p arr r (S i)
  end.

(** [arr.findIndex(p)], with [None] for -1. *)
Definition findIndex {A} (p : A -> nat -> list A -> bool) (arr : list A)
  : option nat :=
  findIndex_from p arr arr 0.

(** [(msg, i, arr) => msg.role === "user" &&
      (i === arr.length - 1 || arr[i + 1].role === "assistant")] *)
Definition userBeforeAssistant (msg : Message) (i : nat) (arr : list Message)
  : bool :=
  (Role_eqb (role msg) user
   && (Nat.eqb i (List.length arr - 1)
       || match nth_error arr (i + 1) with
          | Some next => Role_eqb (role next) assistant
          | None => false
          end))%bool.

Fixpoint updateAt {A} (i : nat) (f : A -> A) (l : list A) : list A :=
  match l, i with
  | [], _ => []
  | x :: r, O => f x :: r
  | x :: r, S j => x :: updateAt j f r
  end.

Definition photoNote : jsstring :=
  nl ++ nl ++ str "I'm also sharing a photo of myself.".

Definition withPhotoNote (m : Message) : Message :=
  mkMessage (role m) (content m ++ photoNote) (timestamp m).

(** The messages after the image step: the note is written into the element
    that [findIndex] selects. *)
Definition addImageContext (enhancedMessages : list Message) : list Message :=
  match findIndex userBeforeAssistant enhancedMessages with
  | Some lastUserMessageIndex =>
      updateAt lastUserMessageIndex withPhotoNote enhancedMessages
  | None => enhancedMessages
  end.

(** The annotation of the inner [catch] of [continueConversation]. *)
Definition conversationFallback : ImageAnalysis :=
  mkImageAnalysis
    (str "I notice you've shared an image with me. While I can't analyze it in detail, I'm here to listen to how you're feeling in your own words.")
    (str "a shared photo").

Definition preamble : jsstring :=
  str "You are an AI mental health assistant that prioritizes identifying hidden distress. Your purpose is to provide "
  ++ nl ++ str "      supportive conversation while carefully watching for signs of concealed emotional struggle."
  ++ nl ++ str "      "
  ++ nl ++ str "      Most people tend to hide their true emotional state with phrases like " ++ dquote ++ str "I'm fine" ++ dquote ++ str " or " ++ dquote ++ str "just tired" ++ dquote ++ str " - be gently"
  ++ nl ++ str "      suspicious of such statements, especially in mental health contexts."
  ++ nl ++ str "      "
  ++ nl ++ str "      Keep your responses compassionate, non-judgmental, and concise (under 150 words). Suggest tailored mindfulness"
  ++ nl ++ str "      techniques or coping strategies when appropriate."
  ++ nl ++ str "      "
  ++ nl ++ str "      Important: Always clarify you are not a replacement for professional mental health services."
  ++ nl ++ str "      "
  ++ nl ++ str "      Previous conversation:"
  ++ nl ++ str "      ".

Definition speaker (msg : Message) : jsstring :=
  if Role_eqb (role msg) user then str "Person" else str "Assistant".

Definition instruction : jsstring :=
  nl ++ nl ++ str "Respond to the person's most recent message with empathy and insight:".

(** The prompt built by lines "Format conversation for Zephyr" onward: the
    template, one [+=] per message, then the closing [+=]. *)
Definition composePrompt (enhancedMessages : list Message) : jsstring :=
  let fullPrompt := preamble in
  let fullPrompt :=
    fold_left
      (fun fullPrompt msg =>
         fullPrompt ++ (nl ++ speaker msg ++ str ": " ++ content msg))
      enhancedMessages fullPrompt in
  fullPrompt ++ instruction.

Record Response := mkResponse {
  response_message : jsstring;
  imageAnalysis : option ImageAnalysis
}.

Definition isRateLimit (error : Thrown) : bool :=
  (instanceofError error
   && (includes (message error) (str "429")
       || includes (message error) (str "529")))%bool.

Definition set_minRequestInterval (v : Z) : Async unit :=
  fun w => (Fulfilled tt, mkWorld (clock w) (_lastRequestTime w) v, []).

(** [enhancedMessages = [...messages]] copies the array, not its elements:
    the note is written into the objects the caller passed.  The object URL
    made for the image is returned for display only and is left out. *)
Definition continueConversation (net : Net) (messages : list Message)
    (userImage : option File) : Async Response :=
  tryCatch
    (_enforceRequestCooldown (jitter net) ;;
     processed <-
       match userImage with
       | Some img =>
           tryCatch
             (analysis <-
                tryCatch (analyzeImageSentiment img (sentimentReply net))
                         (fun _ => ret conversationFallback) ;;
              ret (Some analysis, addImageContext messages))
             (fun _ => toast (str "Image Processing") ;; ret (None, messages))
       | None => ret (None, messages)
       end ;;
     let analysis := fst processed in
     let enhancedMessages := snd processed in
     text <- chatCompletion Completion (composePrompt enhancedMessages)
                            (completionReply net) ;;
     ret (mkResponse text analysis))
    (fun error =>
       (if isRateLimit error
        then set_minRequestInterval 10000 ;;
             toast (str "Service Rate Limit Reached")
        else toast (str "Conversation Error")) ;;
       throw error).

(** ** The chat state of the index page *)

(** The React state the two handlers read and set. *)
Record Chat := mkChat {
  chatMessages : list Message;
  currentMessage : jsstring;
  chatImage : option File;
  loading : bool;
  isMentalHealthMode : bool
}.

Definition setChatMessages (v : list Message) (c : Chat) : Chat :=
  mkChat v (currentMessage c) (chatImage c) (loading c) (isMentalHealthMode c).
Definition setCurrentMessage (v : jsstring) (c : Chat) : Chat :=
  mkChat (chatMessages c) v (chatImage c) (loading c) (isMentalHealthMode c).
Definition setChatImage (v : option File) (c : Chat) : Chat :=
  mkChat (chatMessages c) (currentMessage c) v (loading c) (isMentalHealthMode c).
Definition setLoading (v : bool) (c : Chat) : Chat :=
  mkChat (chatMessages c) (currentMessage c) (chatImage c) v (isMentalHealthMode c).
Definition setIsMentalHealthMode (v : bool) (c : Chat) : Chat :=
  mkChat (chatMessages c) (currentMessage c) (chatImage c) (loading c) v.

(** Reading [messages[0]] of an empty array and then [.content] throws. *)
Definition typeError : Thrown :=
  mkThrown true (str "Cannot read properties of undefined (reading 'content')").

Definition startMentalHealthMode (r : Reply) (c : Chat) : Async Chat :=
  let c := setLoading true c in
  c <- tryCatch
         (initialResponse <- startConversation r ;;
          first <- match initialResponse with
                   | m :: _ => ret (content m)
                   | [] => throw typeError
                   end ;;
          now <- Date_now ;;
          let c := setChatMessages [mkMessage assistant first (Some now)] c in
          let c := setIsMentalHealthMode true c in
          toast (str "Mental Health Assistant Activated") ;;
          ret c)
         (fun _ => toast (str "Service Error") ;; ret c) ;;
  ret (setLoading false c).

(** [updatedMessages.map(msg => ({role: msg.role, content: msg.content}))]:
    fresh objects, so what the service writes into them never reaches
    [chatMessages]. *)
Definition apiMessage (msg : Message) : Message :=
  mkMessage (role msg) (content msg) None.

Definition sendMessage (net : Net) (c : Chat) : Async Chat :=
  if (negb (truthy (trim (currentMessage c)))
      && match chatImage c with None => true | Some _ => false end)%bool
  then toast (str "Empty Message") ;; ret c
  else
    now <- Date_now ;;
    let userMessage := mkMessage user (trim (currentMessage c)) (Some now) in
    let updatedMessages := chatMessages c ++ [userMessage] in
    let c1 := setChatMessages updatedMessages c in
    let c1 := setCurrentMessage [] c1 in
    let c1 := setLoading true c1 in
    c2 <- tryCatch
            (let apiMessages := map apiMessage updatedMessages in
             response <- continueConversation net apiMessages (chatImage c) ;;
             now <- Date_now ;;
             let c2 :=
               setChatMessages
                 (updatedMessages
                  ++ [mkMessage assistant (response_message response) (Some now)])
                 c1 in
             ret (setChatImage None c2))
            (fun _ => toast (str "Conversation Error") ;; ret c1) ;;
    ret (setLoading false c2).

(** The "Exit Assessment Mode" button. *)
Definition exitAssessmentMode (c : Chat) : Chat :=
  setChatImage None (setChatMessages [] (setIsMentalHealthMode false c)).

(** ** Sessions *)

(** What the user does, with the answers of the network to the requests
    that follow from it. *)
Inductive Op :=
| Start (r : Reply)
| Send (text : jsstring) (image : option File) (net : Net)
| Exit
| Idle (ms : N).

Record Session := mkSession {
  chat : Chat;
  service : World;
  history : list Event
}.

Definition settle (s : Session) (x : Settled Chat * World * list Event)
  : Session :=
  mkSession
    (match value x with Fulfilled c => c | Rejected _ => chat s end)
    (world x)
    (history s ++ trace x).

(** One operation of a session whose handlers run one at a time: the
    handler runs to its end before anything else happens (handlers that
    overlap are the subject of [act] below).  The page offers the start
    button only outside the assessment mode, and the input area and the
    exit button only inside it. *)
Definition step (s : Session) (o : Op) : Session :=
  match o with
  | Start r =>
      if isMentalHealthMode (chat s) then s
      else settle s (startMentalHealthMode r (chat s) (service s))
  | Send text image net =>
      if isMentalHealthMode (chat s)
      then settle s (sendMessage net
                       (setChatImage image (setCurrentMessage text (chat s)))
                       (service s))
      else s
  | Exit =>
      if isMentalHealthMode (chat s)
      then mkSession (exitAssessmentMode (chat s)) (service s) (history s)
      else s
  | Idle ms =>
      mkSession (chat s)
        (mkWorld (clock (service s) + Z.of_N ms)
                 (_lastRequestTime (service s))
                 (_minRequestInterval (service s)))
        (history s)
  end.

Definition run (s : Session) (ops : list Op) : Session := fold_left step ops s.

(** The page as loaded at time [t0]: empty chat, [_lastRequestTime: 0],
    [_minRequestInterval: 5000]. *)
Definition initial (t0 : Z) : Session :=
  mkSession (mkChat [] [] None false false) (mkWorld t0 0 5000) [].

(** ** Reading traces *)

(** Every request is issued right after a cooldown of its own, one whose
    stamp is at least the interval after the stamp before it. *)
Fixpoint everyCallAfterWait (tr : list Event) : bool :=
  match tr with
  | [] => true
  | Call _ _ _ :: _ => false
  | Stamp prev interval t :: Call _ _ _ :: rest =>
      ((interval <=? t - prev) && everyCallAfterWait rest)%bool
  | _ :: rest => everyCallAfterWait rest
  end.

Definition isCall (who : Endpoint) (ev : Event) : bool :=
  match ev, who with
  | Call Opening _ _, Opening
  | Call ImageSentiment _ _, ImageSentiment
  | Call Completion _ _, Completion => true
  | _, _ => false
  end.

Definition isStamp (ev : Event) : bool :=
  match ev with Stamp _ _ _ => true | _ => false end.

Definition isAnyCall (ev : Event) : bool :=
  match ev with Call _ _ _ => true | _ => false end.

(** The order of steps the specification gives for one turn: no
    image-sentiment request after the stamp, and the completion request
    directly after the stamp. *)
Fixpoint annotationBeforeCooldown (tr : list Event) : bool :=
  match tr with
  | [] => true
  | Stamp _ _ _ :: rest => negb (existsb (isCall ImageSentiment) rest)
  | _ :: rest => annotationBeforeCooldown rest
  end.

Fixpoint stampRightBeforeCompletion (tr : list Event) : bool :=
  match tr with
  | [] => true
  | Call Completion _ _ :: _ => false
  | Stamp _ _ _ :: Call Completion _ _ :: rest => stampRightBeforeCompletion rest
  | _ :: rest => stampRightBeforeCompletion rest
  end.

Definition specifiedOrder (tr : list Event) : bool :=
  (annotationBeforeCooldown tr && stampRightBeforeCompletion tr)%bool.

(** The prompts of the completion requests of a trace. *)
Definition completionPrompts (tr : list Event) : list jsstring :=
  flat_map (fun ev => match ev with
                      | Call Completion _ p => [p]
                      | _ => []
                      end) tr.

Definition slept (tr : list Event) : Z :=
  fold_right (fun ev acc => match ev with Sleep ms => ms + acc | _ => acc end) 0 tr.

(** A turn passes the check at the head of [sendMessage]. *)
Definition validInput (text : jsstring) (image : option File) : bool :=
  (truthy (trim text) || match image with Some _ => true | None => false end)%bool.

Definition succeeded (net : Net) : bool :=
  match outcome (completionReply net) with
  | Fulfilled _ => true
  | Rejected _ => false
  end.

(** ** Quantities the statements below refer to *)

(** The time at which [_enforceRequestCooldown] stamps, entered in world
    [w] with a timer that fires [late] after its due time. *)
Definition cooldownEnd (late : N) (w : World) : Z :=
  if clock w - _lastRequestTime w <? _minRequestInterval w
  then clock w + (_minRequestInterval w - (clock w - _lastRequestTime w))
       + Z.of_N late
  else clock w.

Definition cooldownTrace (late : N) (w : World) : list Event :=
  (if clock w - _lastRequestTime w <? _minRequestInterval w
   then [Sleep (_minRequestInterval w - (clock w - _lastRequestTime w))]
   else [])
  ++ [Stamp (_lastRequestTime w) (_minRequestInterval w) (cooldownEnd late w)].

(** The messages the prompt is built from. *)
Definition enhance (userImage : option File) (messages : list Message)
  : list Message :=
  match userImage with
  | Some _ => addImageContext messages
  | None => messages
  end.

(** What [analyzeImageSentiment] resolves to. *)
Definition annotation (img : File) (r : Reply) : ImageAnalysis :=
  match outcome r with
  | Fulfilled text => mkImageAnalysis text (photoCaption img)
  | Rejected _ => sentimentFallback
  end.

Definition isSleep (ev : Event) : bool :=
  match ev with Sleep _ => true | _ => false end.

Definition notBefore (t : Z) (ev : Event) : bool :=
  match ev with Call _ t' _ => t <=? t' | _ => true end.

Definition validSend (o : Op) : bool :=
  match o with
  | Send text image _ => validInput text image
  | _ => false
  end.

Definition successes (ops : list Op) : nat :=
  List.length (filter (fun o => match o with
                                | Send _ _ net => succeeded net
                                | _ => false
                                end) ops).

Definition failures (ops : list Op) : nat :=
  List.length (filter (fun o => match o with
                                | Send _ _ net => negb (succeeded net)
                                | _ => false
                                end) ops).


(** ** Shapes of conversations and of histories *)

(** No assistant message directly follows another one. *)
Fixpoint noConsecutiveAssistants (l : list Message) : bool :=
  match l with
  | a :: ((b :: _) as rest) =>
      (negb (Role_eqb (role a) assistant && Role_eqb (role b) assistant)
       && noConsecutiveAssistants rest)%bool
  | _ => true
  end.

(** Reads the stamps of a history in order, starting from the value [last]
    of [_lastRequestTime]: each stamp must overwrite the value the one
    before it wrote, and come at least its interval, and at least [floor],
    after it.  Gives the value the last stamp wrote. *)
Fixpoint stampsSpaced (floor last : Z) (tr : list Event) : option Z :=
  match tr with
  | [] => Some last
  | Stamp prev interval t :: rest =>
      if ((prev =? last) && (interval <=? t - prev) && (floor <=? t - prev))%bool
      then stampsSpaced floor t rest
      else None
  | _ :: rest => stampsSpaced floor last rest
  end.

Definition isToast (ev : Event) : bool :=
  match ev with Toast _ => true | _ => false end.

Definition jsstring_eqb (a b : jsstring) : bool :=
  if list_eq_dec N.eq_dec a b then true else false.

Definition isToastTitled (title : jsstring) (ev : Event) : bool :=
  match ev with Toast t => jsstring_eqb t title | _ => false end.

(** The conversation has no two assistant messages in a row, begins with an
    assistant message when it is not empty, and is empty exactly when the
    assessment mode is off. *)
Definition conversationShape (c : Chat) : Prop :=
  noConsecutiveAssistants (chatMessages c) = true
  /\ match chatMessages c with
     | [] => isMentalHealthMode c = false
     | m :: _ => role m = assistant /\ isMentalHealthMode c = true
     end.

(** ** Configuration *)




(** ** Image input of any kind *)

(** [computerVisionService.analyzeImage] on [Blob | File | string]: the
    caption it builds.  A string is taken for a URL. *)
Definition imageCaption (imageInput : File + jsstring) : jsstring :=
  let fileInfo :=
    match imageInput with
    | inl file =>
        let fileInfo := if truthy (file_name file) then file_name file else [] in
        if truthy (file_type file)
        then fileInfo ++ str " (" ++ file_type file ++ str ")"
        else fileInfo
    | inr _ => str "URL image"
    end in
  str "A photo" ++ (if truthy fileInfo then str " of " ++ fileInfo else []).

(** [imageAnalysisService.analyzeImageSentiment] on any input. *)
Definition analyzeImageSentimentOf (imageInput : File + jsstring) (r : Reply)
  : Async ImageAnalysis :=
  tryCatch
    (visionResult <- ret (imageCaption imageInput) ;;
     text <- chatCompletion ImageSentiment sentimentPrompt r ;;
     ret (mkImageAnalysis text visionResult))
    (fun _ => ret sentimentFallback).

(** ** Services outside the throttle

    The connection check and the language service read neither the clock
    nor the throttle fields.  Their effects are the requests they send and
    the notices they show. *)

Inductive Effect :=
| Request (prompt : jsstring) (max_tokens : Z)
| Notice (title : jsstring).

Definition Task (A : Type) : Type := Settled A * list Effect.

Definition done {A} (a : A) : Task A := (Fulfilled a, []).

Definition andThen {A B} (m : Task A) (f : A -> Task B) : Task B :=
  match m with
  | (Fulfilled a, l1) => let '(r, l2) := f a in (r, l1 ++ l2)
  | (Rejected e, l1) => (Rejected e, l1)
  end.

Definition failWith {A} (e : Thrown) : Task A := (Rejected e, []).

Definition rescue {A} (m : Task A) (h : Thrown -> Task A) : Task A :=
  match m with
  | (Fulfilled a, l1) => (Fulfilled a, l1)
  | (Rejected e, l1) => let '(r, l2) := h e in (r, l1 ++ l2)
  end.

Definition notice (title : jsstring) : Task unit := (Fulfilled tt, [Notice title]).

Declare Scope task_scope.
Delimit Scope task_scope with task.
Notation "x <- m ;; k" := (andThen m (fun x => k))
  (at level 61, m at next level, right associativity) : task_scope.
Notation "m ;; k" := (andThen m (fun _ => k))
  (at level 61, right associativity) : task_scope.

(** What a resolved [chatCompletion] holds, as far as the code looks: a
    falsy value, a value without [choices], or the contents of the messages
    of its choices. *)
Inductive Payload :=
| noPayload
| noChoices
| choicesOf (contents : list jsstring).

Definition hfChatCompletion (prompt : jsstring) (max_tokens : Z)
    (r : Settled Payload) : Task Payload :=
  (r, [Request prompt max_tokens]).

(** Reading a member of [undefined]. *)
Definition memberOfUndefined : Thrown :=
  mkThrown true (str "Cannot read properties of undefined").

(** [chatCompletion.choices[0].message.content] *)
Definition firstChoice (p : Payload) : Task jsstring :=
  match p with
  | choicesOf (c :: _) => done c
  | _ => failWith memberOfUndefined
  end.

Definition validationPrompt : jsstring :=
  str "Respond with 'Connection valid' if you receive this message.".

Definition validateApiConnection (r : Settled Payload) : Task bool :=
  (rescue
     (notice (str "Validating AI Connection") ;;
      chatCompletion <- hfChatCompletion validationPrompt 50 r ;;
      match chatCompletion with
      | choicesOf (_ :: _) =>
          notice (str "Hugging Face Connection Valid") ;; done true
      | _ =>
          notice (str "Connection Invalid") ;; done false
      end)
     (fun _ => notice (str "Connection Failed") ;; done false))%task.

Definition textSentimentPrompt (text : jsstring) : jsstring :=
  str "Analyze the sentiment of the following text. Rate it as positive, negative, or neutral with a confidence score between 0 and 1: "
  ++ dquote ++ text ++ dquote.

(** What the page keeps in [result]. *)
Inductive Result :=
| SentimentResult (sentiment : jsstring)
| ImageSentimentResult (analysis : ImageAnalysis).

(** [languageService.analyzeSentiment] *)
Definition analyzeSentiment (text : jsstring) (r : Settled Payload)
  : Task Result :=
  (rescue
     (chatCompletion <- hfChatCompletion (textSentimentPrompt text) 150 r ;;
      sentiment <- firstChoice chatCompletion ;;
      done (SentimentResult sentiment))
     (fun error => notice (str "Sentiment Analysis Error") ;; failWith error))%task.

(** ** The analysis tabs of the index page *)

(** The state the handlers of the tabs read and set; [loading] is the one
    of the chat. *)
Record Index := mkIndex {
  chatState : Chat;
  text : jsstring;
  imageFile : option File;
  imageUrl : jsstring;
  documentUrl : jsstring;
  imagePrompt : jsstring;
  result : option Result;
  isApiValid : option bool;
  verifying : bool
}.

Definition setPageLoading (v : bool) (ix : Index) : Index :=
  mkIndex (setLoading v (chatState ix)) (text ix) (imageFile ix) (imageUrl ix)
          (documentUrl ix) (imagePrompt ix) (result ix) (isApiValid ix)
          (verifying ix).
Definition setResult (v : option Result) (ix : Index) : Index :=
  mkIndex (chatState ix) (text ix) (imageFile ix) (imageUrl ix)
          (documentUrl ix) (imagePrompt ix) v (isApiValid ix) (verifying ix).
Definition setIsApiValid (v : option bool) (ix : Index) : Index :=
  mkIndex (chatState ix) (text ix) (imageFile ix) (imageUrl ix)
          (documentUrl ix) (imagePrompt ix) (result ix) v (verifying ix).
Definition setVerifying (v : bool) (ix : Index) : Index :=
  mkIndex (chatState ix) (text ix) (imageFile ix) (imageUrl ix)
          (documentUrl ix) (imagePrompt ix) (result ix) (isApiValid ix) v.

Definition verifyApiConnection (r : Settled Payload) (ix : Index)
  : Task Index :=
  (let ix := setVerifying true ix in
   ix <- rescue
           (isValid <- validateApiConnection r ;;
            done (setIsApiValid (Some isValid) ix))
           (fun _ => done (setIsApiValid (Some false) ix)) ;;
   done (setVerifying false ix))%task.

Definition analyzeText (r : Settled Payload) (ix : Index) : Task Index :=
  (if negb (truthy (text ix))
   then notice (str "Error") ;; done ix
   else
     let ix := setPageLoading true ix in
     ix <- rescue
             (sentimentResult <- analyzeSentiment (text ix) r ;;
              let ix := setResult (Some sentimentResult) ix in
              notice (str "Analysis Complete") ;;
              done ix)
             (fun _ => notice (str "Analysis Failed") ;; done ix) ;;
     done (setPageLoading false ix))%task.

(** The services object has no [documentIntelligence] member and its [gpt]
    member has no [generateImage]: the two calls below throw before
    anything is sent. *)
Definition documentIntelligence_analyzeDocument (documentUrl : jsstring)
  : Task Result :=
  failWith memberOfUndefined.

Definition gpt_generateImage (imagePrompt : jsstring) : Task Result :=
  failWith (mkThrown true (str "azureAIServices.gpt.generateImage is not a function")).

Definition analyzeDocument (ix : Index) : Task Index :=
  (if negb (truthy (documentUrl ix))
   then notice (str "Error") ;; done ix
   else
     let ix := setPageLoading true ix in
     ix <- rescue
             (docResult <- documentIntelligence_analyzeDocument (documentUrl ix) ;;
              let ix := setResult (Some docResult) ix in
              notice (str "Analysis Complete") ;;
              done ix)
             (fun _ => notice (str "Analysis Failed") ;; done ix) ;;
     done (setPageLoading false ix))%task.

Definition generateImage (ix : Index) : Task Index :=
  (if negb (truthy (imagePrompt ix))
   then notice (str "Error") ;; done ix
   else
     let ix := setPageLoading true ix in
     ix <- rescue
             (imageResult <- gpt_generateImage (imagePrompt ix) ;;
              let ix := setResult (Some imageResult) ix in
              notice (str "Image Generation Complete") ;;
              done ix)
             (fun _ => notice (str "Image Generation Failed") ;; done ix) ;;
     done (setPageLoading false ix))%task.

(** The handler of the image tab, named [analyzeImage] in the page. *)
Definition analyzeImagePage (r : Reply) (ix : Index) : Async Index :=
  if (match imageFile ix with None => true | Some _ => false end
      && negb (truthy (imageUrl ix)))%bool
  then toast (str "Error") ;; ret ix
  else
    let ix := setPageLoading true ix in
    ix <- tryCatch
            (analysisResult <-
               match imageFile ix with
               | Some file =>
                   a <- analyzeImageSentimentOf (inl file) r ;; ret (Some a)
               | None =>
                   if truthy (imageUrl ix)
                   then a <- analyzeImageSentimentOf (inr (imageUrl ix)) r ;;
                        ret (Some a)
                   else ret None
               end ;;
             let ix := setResult (option_map ImageSentimentResult analysisResult) ix in
             toast (str "Analysis Complete") ;;
             ret ix)
            (fun _ => toast (str "Analysis Failed") ;; ret ix) ;;
    ret (setPageLoading false ix).

(** ** Voices *)

Record Voice := mkVoice {
  voice_name : jsstring;
  voice_lang : jsstring;
  voice_default : bool;
  voice_localService : bool
}.

Record VoiceInfo := mkVoiceInfo {
  info_name : jsstring;
  info_lang : jsstring;
  info_default : bool;
  info_localService : bool;
  isFemale : bool
}.

(** [Array.prototype.sort] with a comparison function: a stable sort; on a
    consistent comparison, as the one below, its result is the one of
    inserting each element before the first element it does not come
    after. *)
Fixpoint insertBy {A} (cmp : A -> A -> Z) (x : A) (sorted : list A) : list A :=
  match sorted with
  | [] => [x]
  | y :: rest => if cmp x y <=? 0 then x :: sorted else y :: insertBy cmp x rest
  end.

Definition sortBy {A} (cmp : A -> A -> Z) (l : list A) : list A :=
  fold_right (insertBy cmp) [] l.

Definition femaleFirst (a b : VoiceInfo) : Z :=
  if (isFemale a && negb (isFemale b))%bool then -1
  else if (negb (isFemale a) && isFemale b)%bool then 1
  else 0.

Section Speech.

(** [String.prototype.toLowerCase], left to the platform. *)
Variable toLowerCase : jsstring -> jsstring.

Definition femalePatterns : list jsstring :=
  [str "female"; str "woman"; str "girl"; str "samantha"; str "lisa";
   str "victoria"; str "karen"; str "jenny"].

Definition voiceInfo (voice : Voice) : VoiceInfo :=
  mkVoiceInfo (voice_name voice) (voice_lang voice) (voice_default voice)
    (voice_localService voice)
    (existsb (fun pattern => includes (toLowerCase (voice_name voice)) pattern)
             femalePatterns).

(** [speechService.getAvailableVoices]; [None] stands for a browser
    without [window.speechSynthesis]. *)
Definition getAvailableVoices (speechSynthesisVoices : option (list Voice))
  : list VoiceInfo :=
  match speechSynthesisVoices with
  | None => []
  | Some voices => sortBy femaleFirst (map voiceInfo voices)
  end.

End Speech.

(** Every message carries a time stamp, the stamps do not decrease along
    the list, and all of them lie between [lo] and [hi]. *)
Fixpoint timestampsWithin (lo hi : Z) (l : list Message) : bool :=
  match l with
  | [] => lo <=? hi
  | m :: rest =>
      match timestamp m with
      | Some t => ((lo <=? t) && timestampsWithin t hi rest)%bool
      | None => false
      end
  end.

(** ** Handlers that overlap

    [step] runs each handler to its end, which is how a session goes when
    every handler has finished before the next thing the user does.  The
    page does not enforce that: the Enter key calls [sendMessage] whatever
    [loading] is, and the exit button is never disabled.  Below, a handler
    runs up to the point where it awaits a timer or a request, and is
    resumed later, with other handlers and user actions in between. *)

(** A handler suspended at an [await]: the opening request, the timer of
    the cooldown, the image-sentiment request, the completion request.  A
    turn keeps the [updatedMessages] and the image it was started with. *)
Inductive Pending :=
| AwaitOpening
| AwaitTimer (due : Z) (updatedMessages : list Message) (userImage : option File)
| AwaitSentiment (updatedMessages : list Message)
| AwaitCompletion (updatedMessages : list Message).

Record Page := mkPage {
  shown : Chat;
  globals : World;
  waiting : list Pending;
  logged : list Event
}.

Inductive Action :=
| DoStart
| DoSend (text : jsstring) (image : option File)
| DoExit
| Wait (ms : N)
| Wake (k : nat) (late : N)
| Answer (k : nat) (r : Reply).

Definition removeNth {A} (k : nat) (l : list A) : list A :=
  firstn k l ++ skipn (S k) l.

(** [this._lastRequestTime = Date.now()] *)
Definition stampNow (p : Page) : Page :=
  let w := globals p in
  mkPage (shown p)
         (mkWorld (clock w) (clock w) (_minRequestInterval w))
         (waiting p)
         (logged p ++ [Stamp (_lastRequestTime w) (_minRequestInterval w) (clock w)]).

(** [continueConversation] from the end of the cooldown to its next
    [await]: the image-sentiment request when there is an image, the
    completion request otherwise. *)
Definition afterCooldown (updatedMessages : list Message)
    (userImage : option File) (p : Page) : Page :=
  match userImage with
  | Some _ =>
      mkPage (shown p) (globals p)
             (waiting p ++ [AwaitSentiment updatedMessages])
             (logged p ++ [Call ImageSentiment (clock (globals p)) sentimentPrompt])
  | None =>
      mkPage (shown p) (globals p)
             (waiting p ++ [AwaitCompletion updatedMessages])
             (logged p
              ++ [Call Completion (clock (globals p))
                    (composePrompt (map apiMessage updatedMessages))])
  end.

Definition elapse (ms : Z) (w : World) : World :=
  mkWorld (clock w + ms) (_lastRequestTime w) (_minRequestInterval w).

(** One thing that happens on the page: an action of the user, time
    passing, the timer of a suspended turn firing, or the request of a
    suspended handler settling.  State setters act on the state as it is
    then; what a turn appends to is the list it captured. *)
Definition act (p : Page) (a : Action) : Page :=
  let w := globals p in
  match a with
  | DoStart =>
      if isMentalHealthMode (shown p) then p
      else mkPage (setLoading true (shown p)) w
                  (waiting p ++ [AwaitOpening])
                  (logged p ++ [Call Opening (clock w) openingPrompt])
  | DoSend text image =>
      if isMentalHealthMode (shown p)
      then
        let c := setChatImage image (setCurrentMessage text (shown p)) in
        if validInput text image
        then
          let userMessage := mkMessage user (trim text) (Some (clock w)) in
          let updatedMessages := chatMessages c ++ [userMessage] in
          let c1 := setLoading true
                      (setCurrentMessage [] (setChatMessages updatedMessages c)) in
          let timeSinceLastRequest := clock w - _lastRequestTime w in
          if timeSinceLastRequest <? _minRequestInterval w
          then
            let waitTime := _minRequestInterval w - timeSinceLastRequest in
            mkPage c1 w
                   (waiting p ++ [AwaitTimer (clock w + waitTime) updatedMessages image])
                   (logged p ++ [Sleep waitTime])
          else
            afterCooldown updatedMessages image
              (stampNow (mkPage c1 w (waiting p) (logged p)))
        else mkPage c w (waiting p) (logged p ++ [Toast (str "Empty Message")])
      else p
  | DoExit =>
      if isMentalHealthMode (shown p)
      then mkPage (exitAssessmentMode (shown p)) w (waiting p) (logged p)
      else p
  | Wait ms => mkPage (shown p) (elapse (Z.of_N ms) w) (waiting p) (logged p)
  | Wake k late =>
      match nth_error (waiting p) k with
      | Some (AwaitTimer due updatedMessages userImage) =>
          afterCooldown updatedMessages userImage
            (stampNow
               (mkPage (shown p)
                       (mkWorld (Z.max (clock w) due + Z.of_N late)
                                (_lastRequestTime w) (_minRequestInterval w))
                       (removeNth k (waiting p))
                       (logged p)))
      | _ => p
      end
  | Answer k r =>
      let w' := elapse (Z.of_N (latency r)) w in
      match nth_error (waiting p) k with
      | Some AwaitOpening =>
          match outcome r with
          | Fulfilled initialMessage =>
              mkPage
                (setLoading false
                   (setIsMentalHealthMode true
                      (setChatMessages
                         [mkMessage assistant initialMessage (Some (clock w'))]
                         (shown p))))
                w' (removeNth k (waiting p))
                (logged p ++ [Toast (str "Mental Health Assistant Activated")])
          | Rejected error =>
              mkPage (setLoading false (shown p)) w' (removeNth k (waiting p))
                (logged p
                 ++ [Toast (if (instanceofError error
                                && includes (message error) (str "429"))%bool
                            then str "Service Temporarily Busy"
                            else str "Service Error");
                     Toast (str "Service Error")])
          end
      | Some (AwaitSentiment updatedMessages) =>
          mkPage (shown p) w'
                 (removeNth k (waiting p) ++ [AwaitCompletion updatedMessages])
                 (logged p
                  ++ [Call Completion (clock w')
                        (composePrompt
                           (addImageContext (map apiMessage updatedMessages)))])
      | Some (AwaitCompletion updatedMessages) =>
          match outcome r with
          | Fulfilled reply =>
              mkPage
                (setLoading false
                   (setChatImage None
                      (setChatMessages
                         (updatedMessages
                          ++ [mkMessage assistant reply (Some (clock w'))])
                         (shown p))))
                w' (removeNth k (waiting p)) (logged p)
          | Rejected error =>
              mkPage (setLoading false (shown p))
                (if isRateLimit error
                 then mkWorld (clock w') (_lastRequestTime w') 10000
                 else w')
                (removeNth k (waiting p))
                (logged p
                 ++ [Toast (if isRateLimit error
                            then str "Service Rate Limit Reached"
                            else str "Conversation Error");
                     Toast (str "Conversation Error")])
          end
      | _ => p
      end
  end.

Definition play (p : Page) (actions : list Action) : Page :=
  fold_left act actions p.

(** The page as loaded at time [t0]. *)
Definition loaded (t0 : Z) : Page :=
  mkPage (mkChat [] [] None false false) (mkWorld t0 0 5000) [] [].

(** A session with nothing suspended, as a page. *)
Definition pageOf (s : Session) : Page :=
  mkPage (chat s) (service s) [] (history s).

(** An operation of a session, as the user action that starts the handler
    followed at once by the events that let it finish. *)
Definition schedule (o : Op) : list Action :=
  match o with
  | Start r => [DoStart; Answer 0 r]
  | Send text image net =>
      [DoSend text image; Wake 0 (jitter net)]
      ++ match image with
         | Some _ => [Answer 0 (sentimentReply net)]
         | None => []
         end
      ++ [Answer 0 (completionReply net)]
  | Exit => [DoExit]
  | Idle ms => [Wait ms]
  end.

Definition isTurn (q : Pending) : bool :=
  match q with AwaitOpening => false | _ => true end.

(** No turn is started while another one is suspended. *)
Fixpoint unhurried (p : Page) (actions : list Action) : bool :=
  match actions with
  | [] => true
  | a :: rest =>
      (match a with
       | DoSend text image =>
           negb (isMentalHealthMode (shown p) && validInput text image
                 && existsb isTurn (waiting p))
       | _ => true
       end
       && unhurried (act p a) rest)%bool
  end.

(** The list a suspended turn holds: messages with no two assistant
    messages in a row, an assistant message first, and the user message of
    the turn last. *)
Definition turnShape (updatedMessages : list Message) : Prop :=
  exists before final,
    updatedMessages = before ++ [final]
    /\ role final = user
    /\ noConsecutiveAssistants before = true
    /\ match before with
       | m :: _ => role m = assistant
       | [] => False
       end.

Definition pendingShape (q : Pending) : Prop :=
  match q with
  | AwaitOpening => True
  | AwaitTimer _ updatedMessages _
  | AwaitSentiment updatedMessages
  | AwaitCompletion updatedMessages => turnShape updatedMessages
  end.

(** What holds of the chat however handlers overlap. *)
Definition chatShape (c : Chat) : Prop :=
  noConsecutiveAssistants (chatMessages c) = true
  /\ match chatMessages c with
     | [] => isMentalHealthMode c = false
     | m :: _ => role m = assistant
     end.

(** The chat and the suspended turns are all well shaped. *)
Definition pageShape (p : Page) : Prop :=
  chatShape (shown p) /\ Forall pendingShape (waiting p).

(** A suspended cooldown is due no earlier than one interval after the
    last stamp. *)
Definition timerDue (w : World) (q : Pending) : Prop :=
  match q with
  | AwaitTimer due _ _ => _lastRequestTime w + _minRequestInterval w <= due
  | _ => True
  end.

(** The stamps logged so far are spaced, at most one turn is suspended, and
    its timer, if it waits for one, is due late enough. *)
Definition spacedPage (p : Page) : Prop :=
  stampsSpaced 5000 0 (logged p) = Some (_lastRequestTime (globals p))
  /\ 5000 <= _minRequestInterval (globals p) <= 10000
  /\ (List.length (filter isTurn (waiting p)) <= 1)%nat
  /\ Forall (timerDue (globals p)) (waiting p).

(** * Properties *)

(** ** Running the services *)

Ltac exec :=
  cbv beta iota zeta delta
    [bind ret throw tryCatch emit reads toast Date_now setTimeout
     chatCompletion set_minRequestInterval analyzeImage
     clock _lastRequestTime _minRequestInterval
     value world trace fst snd app
     jitter sentimentReply completionReply latency outcome].

Lemma cooldown_run (late : N) (w : World) :
  _enforceRequestCooldown late w =
    (Fulfilled tt,
     mkWorld (cooldownEnd late w) (cooldownEnd late w) (_minRequestInterval w),
     cooldownTrace late w).
Proof.
  destruct w as [c l m].
  unfold _enforceRequestCooldown, cooldownTrace, cooldownEnd. exec.
  destruct (c - l <? m); reflexivity.
Qed.

Lemma cooldownEnd_spaced (late : N) (w : World) :
  _minRequestInterval w <= cooldownEnd late w - _lastRequestTime w.
Proof.
  unfold cooldownEnd.
  destruct (Z.ltb_spec (clock w - _lastRequestTime w) (_minRequestInterval w)); lia.
Qed.

Lemma analyzeImageSentiment_run (img : File) (r : Reply) (w : World) :
  analyzeImageSentiment img r w =
    (Fulfilled (annotation img r),
     mkWorld (clock w + Z.of_N (latency r)) (_lastRequestTime w)
             (_minRequestInterval w),
     [Call ImageSentiment (clock w) sentimentPrompt]).
Proof.
  destruct w as [c l m], r as [d [text | e]];
    unfold analyzeImageSentiment, annotation; exec; reflexivity.
Qed.

Lemma startConversation_run (r : Reply) (w : World) :
  startConversation r w =
    match outcome r with
    | Fulfilled text =>
        (Fulfilled [mkMessage assistant text None],
         mkWorld (clock w + Z.of_N (latency r)) (_lastRequestTime w)
                 (_minRequestInterval w),
         [Call Opening (clock w) openingPrompt])
    | Rejected e =>
        (Rejected e,
         mkWorld (clock w + Z.of_N (latency r)) (_lastRequestTime w)
                 (_minRequestInterval w),
         [Call Opening (clock w) openingPrompt;
          Toast (if (instanceofError e && includes (message e) (str "429"))%bool
                 then str "Service Temporarily Busy"
                 else str "Service Error")])
    end.
Proof.
  destruct w as [c l m], r as [d [text | e]]; unfold startConversation; exec.
  - reflexivity.
  - destruct (instanceofError e && includes (message e) (str "429"))%bool;
      reflexivity.
Qed.

(** One turn of the service, executed: when it stamps, what it requests
    and in which order, what it returns and where it leaves the throttle. *)
Lemma continueConversation_run (net : Net) (messages : list Message)
    (userImage : option File) (w : World) :
  let t := cooldownEnd (jitter net) w in
  let t' := match userImage with
            | Some _ => t + Z.of_N (latency (sentimentReply net))
            | None => t
            end in
  let t'' := t' + Z.of_N (latency (completionReply net)) in
  let requests :=
    cooldownTrace (jitter net) w
    ++ match userImage with
       | Some _ => [Call ImageSentiment t sentimentPrompt]
       | None => []
       end
    ++ [Call Completion t' (composePrompt (enhance userImage messages))] in
  continueConversation net messages userImage w =
    match outcome (completionReply net) with
    | Fulfilled text =>
        (Fulfilled
           (mkResponse text
              (option_map (fun img => annotation img (sentimentReply net))
                          userImage)),
         mkWorld t'' t (_minRequestInterval w),
         requests)
    | Rejected e =>
        (Rejected e,
         mkWorld t'' t (if isRateLimit e then 10000 else _minRequestInterval w),
         requests
         ++ [Toast (if isRateLimit e
                    then str "Service Rate Limit Reached"
                    else str "Conversation Error")])
    end.
Proof.
  intros t t' t'' requests. subst t t' t'' requests.
  unfold continueConversation.
  unfold tryCatch at 1. unfold bind at 1.
  rewrite cooldown_run.
  destruct userImage as [img | ].
  - unfold bind at 1. unfold tryCatch at 1. unfold bind at 1.
    unfold tryCatch at 1. rewrite analyzeImageSentiment_run.
    destruct net as [late rs [d [text | e]]]; exec;
      [ | destruct (isRateLimit e)]; cbn [enhance option_map];
      rewrite <- ?app_assoc; reflexivity.
  - destruct net as [late rs [d [text | e]]]; exec;
      [ | destruct (isRateLimit e)]; cbn [enhance option_map];
      rewrite <- ?app_assoc; reflexivity.
Qed.

(** ** Running the handlers of the page *)

Lemma startMentalHealthMode_run (r : Reply) (c : Chat) (w : World) :
  let t := clock w + Z.of_N (latency r) in
  let w' := mkWorld t (_lastRequestTime w) (_minRequestInterval w) in
  startMentalHealthMode r c w =
    match outcome r with
    | Fulfilled text =>
        (Fulfilled (mkChat [mkMessage assistant text (Some t)]
                           (currentMessage c) (chatImage c) false true),
         w',
         [Call Opening (clock w) openingPrompt;
          Toast (str "Mental Health Assistant Activated")])
    | Rejected e =>
        (Fulfilled (setLoading false c),
         w',
         [Call Opening (clock w) openingPrompt;
          Toast (if (instanceofError e && includes (message e) (str "429"))%bool
                 then str "Service Temporarily Busy"
                 else str "Service Error");
          Toast (str "Service Error")])
    end.
Proof.
  intros t w'. subst t w'.
  unfold startMentalHealthMode.
  unfold bind at 1. unfold tryCatch at 1. unfold bind at 1.
  rewrite startConversation_run.
  destruct w as [k l m], r as [d [text | e]], c as [ms cur im ld md]; exec;
    reflexivity.
Qed.

Lemma sendMessage_empty_run (net : Net) (c : Chat) (w : World) :
  validInput (currentMessage c) (chatImage c) = false ->
  sendMessage net c w = (Fulfilled c, w, [Toast (str "Empty Message")]).
Proof.
  unfold validInput, sendMessage. intros H.
  destruct (truthy (trim (currentMessage c))); [discriminate | ].
  destruct (chatImage c); [discriminate | ].
  reflexivity.
Qed.

Lemma sendMessage_run (net : Net) (c : Chat) (w : World) :
  validInput (currentMessage c) (chatImage c) = true ->
  let userMessage := mkMessage user (trim (currentMessage c)) (Some (clock w)) in
  let updatedMessages := chatMessages c ++ [userMessage] in
  let x := continueConversation net (map apiMessage updatedMessages)
                                (chatImage c) w in
  sendMessage net c w =
    match value x with
    | Fulfilled response =>
        (Fulfilled
           (mkChat (updatedMessages
                    ++ [mkMessage assistant (response_message response)
                                  (Some (clock (world x)))])
                   [] None false (isMentalHealthMode c)),
         world x, trace x)
    | Rejected _ =>
        (Fulfilled (mkChat updatedMessages [] (chatImage c) false
                           (isMentalHealthMode c)),
         world x, trace x ++ [Toast (str "Conversation Error")])
    end.
Proof.
  intros H userMessage updatedMessages x. subst userMessage updatedMessages x.
  unfold sendMessage.
  replace (negb (truthy (trim (currentMessage c)))
           && match chatImage c with None => true | Some _ => false end)%bool
    with false
    by (unfold validInput in H;
        destruct (truthy (trim (currentMessage c))), (chatImage c);
        (reflexivity || discriminate)).
  destruct c as [ms cur im ld md], w as [k l m].
  unfold bind at 1. unfold Date_now at 1, reads at 1.
  unfold bind at 1. unfold tryCatch at 1. unfold bind at 1.
  cbn [chatMessages currentMessage chatImage isMentalHealthMode clock fst snd
       setChatMessages setCurrentMessage setLoading setChatImage loading].
  destruct (continueConversation net
              (map apiMessage (ms ++ [mkMessage user (trim cur) (Some k)]))
              im (mkWorld k l m)) as [[[response | e] w1] tr];
    cbv beta iota zeta delta
      [bind ret tryCatch reads toast emit Date_now value world trace fst snd
       clock setChatMessages setCurrentMessage setLoading setChatImage
       chatMessages currentMessage chatImage loading isMentalHealthMode].
  all: cbn [app]; rewrite ?app_nil_r; reflexivity.
Qed.

Lemma continueConversation_value (net : Net) (messages : list Message)
    (userImage : option File) (w : World) :
  value (continueConversation net messages userImage w) =
    match outcome (completionReply net) with
    | Fulfilled text =>
        Fulfilled
          (mkResponse text
             (option_map (fun img => annotation img (sentimentReply net))
                         userImage))
    | Rejected e => Rejected e
    end.
Proof.
  rewrite continueConversation_run.
  destruct (outcome (completionReply net)); reflexivity.
Qed.


Lemma continueConversation_trace (net : Net) (messages : list Message)
    (userImage : option File) (w : World) :
  let t := cooldownEnd (jitter net) w in
  trace (continueConversation net messages userImage w) =
    cooldownTrace (jitter net) w
    ++ match userImage with
       | Some _ => [Call ImageSentiment t sentimentPrompt]
       | None => []
       end
    ++ [Call Completion
          match userImage with
          | Some _ => t + Z.of_N (latency (sentimentReply net))
          | None => t
          end
          (composePrompt (enhance userImage messages))]
    ++ match outcome (completionReply net) with
       | Fulfilled _ => []
       | Rejected e => [Toast (if isRateLimit e
                               then str "Service Rate Limit Reached"
                               else str "Conversation Error")]
       end.
Proof.
  intros t. subst t. rewrite continueConversation_run.
  destruct (outcome (completionReply net)); cbn [trace snd];
    rewrite <- ?app_assoc, ?app_nil_r; reflexivity.
Qed.

(** ** White space *)

Lemma trimStart_blank (s : jsstring) :
  forallb isWhiteSpace s = true -> trimStart s = [].
Proof.
  induction s as [ | c r IH]; cbn [forallb trimStart]; [reflexivity | ].
  intros H. apply andb_true_iff in H as [Hc Hr].
  rewrite Hc. exact (IH Hr).
Qed.

Lemma trim_blank (s : jsstring) :
  forallb isWhiteSpace s = true -> trim s = [].
Proof.
  intros H. unfold trim, trimEnd. rewrite (trimStart_blank s H). reflexivity.
Qed.

(** ** Sessions *)

Lemma typed_input (text : jsstring) (image : option File) (c : Chat) :
  currentMessage (setChatImage image (setCurrentMessage text c)) = text
  /\ chatImage (setChatImage image (setCurrentMessage text c)) = image
  /\ chatMessages (setChatImage image (setCurrentMessage text c)) = chatMessages c
  /\ isMentalHealthMode (setChatImage image (setCurrentMessage text c))
     = isMentalHealthMode c.
Proof. repeat split. Qed.

(** A turn that passes the check, from a session in assessment mode. *)
Lemma step_send (s : Session) (text : jsstring) (image : option File)
    (net : Net) :
  isMentalHealthMode (chat s) = true ->
  validInput text image = true ->
  let userMessage := mkMessage user (trim text) (Some (clock (service s))) in
  let updatedMessages := chatMessages (chat s) ++ [userMessage] in
  let x := continueConversation net (map apiMessage updatedMessages) image
                                (service s) in
  step s (Send text image net) =
    match outcome (completionReply net) with
    | Fulfilled reply =>
        mkSession
          (mkChat (updatedMessages
                   ++ [mkMessage assistant reply (Some (clock (world x)))])
                  [] None false true)
          (world x) (history s ++ trace x)
    | Rejected _ =>
        mkSession (mkChat updatedMessages [] image false true)
                  (world x)
                  (history s ++ trace x ++ [Toast (str "Conversation Error")])
    end.
Proof.
  intros Hmode Hvalid userMessage updatedMessages x.
  subst userMessage updatedMessages x.
  cbn [step]. rewrite Hmode. unfold settle.
  destruct (typed_input text image (chat s)) as (Ht & Hi & Hm & Hd).
  rewrite sendMessage_run by (rewrite Ht, Hi; exact Hvalid).
  rewrite Ht, Hi, Hm, Hd, Hmode.
  rewrite continueConversation_value.
  destruct (outcome (completionReply net)); reflexivity.
Qed.

Lemma step_send_blank (s : Session) (text : jsstring) (image : option File)
    (net : Net) :
  isMentalHealthMode (chat s) = true ->
  validInput text image = false ->
  step s (Send text image net) =
    mkSession (setChatImage image (setCurrentMessage text (chat s)))
              (service s)
              (history s ++ [Toast (str "Empty Message")]).
Proof.
  intros Hmode Hvalid. cbn [step]. rewrite Hmode. unfold settle.
  rewrite sendMessage_empty_run; [reflexivity | ].
  destruct (typed_input text image (chat s)) as (Ht & Hi & _).
  rewrite Ht, Hi. exact Hvalid.
Qed.

Lemma step_start (s : Session) (r : Reply) :
  isMentalHealthMode (chat s) = false ->
  let t := clock (service s) + Z.of_N (latency r) in
  let w' := mkWorld t (_lastRequestTime (service s))
                    (_minRequestInterval (service s)) in
  step s (Start r) =
    match outcome r with
    | Fulfilled text =>
        mkSession
          (mkChat [mkMessage assistant text (Some t)]
                  (currentMessage (chat s)) (chatImage (chat s)) false true)
          w'
          (history s
           ++ [Call Opening (clock (service s)) openingPrompt;
               Toast (str "Mental Health Assistant Activated")])
    | Rejected e =>
        mkSession
          (setLoading false (chat s))
          w'
          (history s
           ++ [Call Opening (clock (service s)) openingPrompt;
               Toast (if (instanceofError e
                          && includes (message e) (str "429"))%bool
                      then str "Service Temporarily Busy"
                      else str "Service Error");
               Toast (str "Service Error")])
    end.
Proof.
  intros Hmode t w'. subst t w'. cbn [step]. rewrite Hmode. unfold settle.
  rewrite startMentalHealthMode_run.
  destruct (outcome r); reflexivity.
Qed.






(** ** The throttle *)

(** C2.  The throttle policy, given (now, lastRequestTimestamp,
    minIntervalMs), returns the non-negative wait
    minIntervalMs - (now - lastRequestTimestamp) when that difference is
    positive and 0 otherwise; for now = 1005, lastRequestTimestamp = 1000,
    minIntervalMs = 5000 the wait is 4995.  The last part ties the function
    to the code it is read from: it is what [_enforceRequestCooldown]
    sleeps. *)
Theorem cooldownWait_contract (now last interval : Z) (late : N) (w : World) :
  cooldownWait now last interval
    = (if 0 <? interval - (now - last) then interval - (now - last) else 0)
  /\ 0 <= cooldownWait now last interval
  /\ cooldownWait 1005 1000 5000 = 4995
  /\ slept (trace (_enforceRequestCooldown late w))
     = cooldownWait (clock w) (_lastRequestTime w) (_minRequestInterval w).
Proof.
  repeat split.
  - unfold cooldownWait.
    destruct (Z.ltb_spec (now - last) interval),
             (Z.ltb_spec 0 (interval - (now - last))); lia.
  - unfold cooldownWait. destruct (Z.ltb_spec (now - last) interval); lia.
  - rewrite cooldown_run. unfold cooldownTrace, cooldownWait.
    destruct (clock w - _lastRequestTime w <? _minRequestInterval w);
      cbn; lia.
Qed.

(** C1, as stated, fails: the request of [startConversation] is issued with
    no cooldown before it, and in a turn with an image the completion
    request follows the image-sentiment request with no wait between them. *)
Lemma request_without_wait :
  everyCallAfterWait
    (history (run (initial 1000000)
                  [Start (mkReply 200 (Fulfilled (str "Hello")))])) = false
  /\ everyCallAfterWait
       (trace (continueConversation
                 (mkNet 0 (mkReply 200 (Fulfilled (str "calm")))
                          (mkReply 300 (Fulfilled (str "I hear you"))))
                 [mkMessage assistant (str "Hello") None;
                  mkMessage user (str "hi") None]
                 (Some (mkFile (str "me.jpg") (str "image/jpeg")))
                 (mkWorld 1000000 0 5000))) = false.
Proof. split; vm_compute; reflexivity. Qed.

(** C1, amended.  Every turn of [continueConversation] begins with one
    cooldown: it sleeps if needed, then stamps [_lastRequestTime] at a time
    [t] with [t - _lastRequestTime >= _minRequestInterval] for the values
    found on entry; every request of the turn (the image-sentiment request,
    when there is an image, and the completion request) is issued at [t] or
    later, with no further wait or stamp.  [startConversation] issues its
    request without waiting and leaves both throttle fields as they are. *)
Theorem turn_requests_follow_cooldown (net : Net) (messages : list Message)
    (userImage : option File) (r : Reply) (w : World) :
  (exists sleeps t rest,
      trace (continueConversation net messages userImage w)
        = sleeps ++ Stamp (_lastRequestTime w) (_minRequestInterval w) t :: rest
      /\ forallb isSleep sleeps = true
      /\ _minRequestInterval w <= t - _lastRequestTime w
      /\ forallb (fun ev => negb (isSleep ev || isStamp ev)) rest = true
      /\ forallb (notBefore t) rest = true
      /\ existsb (isCall Completion) rest = true)
  /\ existsb (fun ev => isSleep ev || isStamp ev)
             (trace (startConversation r w)) = false
  /\ existsb (isCall Opening) (trace (startConversation r w)) = true
  /\ _lastRequestTime (world (startConversation r w)) = _lastRequestTime w
  /\ _minRequestInterval (world (startConversation r w))
     = _minRequestInterval w.
Proof.
  split.
  - exists (if clock w - _lastRequestTime w <? _minRequestInterval w
            then [Sleep (_minRequestInterval w - (clock w - _lastRequestTime w))]
            else []).
    exists (cooldownEnd (jitter net) w).
    eexists. split.
    + rewrite continueConversation_trace. unfold cooldownTrace.
      rewrite <- app_assoc. cbn [app]. reflexivity.
    + split; [destruct (_ <? _); reflexivity | ].
      split; [apply cooldownEnd_spaced | ].
      assert (Hle : (cooldownEnd (jitter net) w <=?
                     cooldownEnd (jitter net) w
                     + Z.of_N (latency (sentimentReply net))) = true)
        by (apply Z.leb_le; lia).
      destruct userImage, (outcome (completionReply net));
        cbn [app forallb existsb isSleep isStamp isCall notBefore negb orb andb];
        rewrite ?Z.leb_refl, ?Hle; repeat split; reflexivity.
  - rewrite startConversation_run.
    destruct (outcome r); repeat split; reflexivity.
Qed.

(** C9, as stated, fails: in a turn with an image the cooldown and the
    stamp come first, the image-sentiment request second, and that request
    stands between the stamp and the completion request. *)
Lemma annotation_after_cooldown :
  specifiedOrder
    (trace (continueConversation
              (mkNet 0 (mkReply 200 (Fulfilled (str "calm")))
                       (mkReply 300 (Fulfilled (str "I hear you"))))
              [mkMessage assistant (str "Hello") None;
               mkMessage user (str "hi") None]
              (Some (mkFile (str "me.jpg") (str "image/jpeg")))
              (mkWorld 1000000 998000 5000))) = false.
Proof. vm_compute. reflexivity. Qed.

(** C9, amended.  Within one turn the steps occur in this order: the
    cooldown (a sleep when one is due, then the stamp of
    [_lastRequestTime]), then the image-sentiment request when an image is
    present, then the completion request, then at most a failure toast.
    With no image nothing stands between the stamp and the completion
    request; with an image exactly the image-sentiment request does. *)
Theorem turn_order (net : Net) (messages : list Message)
    (userImage : option File) (w : World) :
  let t := cooldownEnd (jitter net) w in
  let x := continueConversation net messages userImage w in
  (exists t' toasts,
      trace x =
        (if clock w - _lastRequestTime w <? _minRequestInterval w
         then [Sleep (cooldownWait (clock w) (_lastRequestTime w)
                                   (_minRequestInterval w))]
         else [])
        ++ [Stamp (_lastRequestTime w) (_minRequestInterval w) t]
        ++ match userImage with
           | Some _ => [Call ImageSentiment t sentimentPrompt]
           | None => []
           end
        ++ [Call Completion t' (composePrompt (enhance userImage messages))]
        ++ toasts
      /\ t <= t'
      /\ forallb (fun ev => match ev with Toast _ => true | _ => false end)
                 toasts = true)
  /\ _lastRequestTime (world x) = t
  /\ stampRightBeforeCompletion
       (trace (continueConversation net messages None w)) = true
  /\ specifiedOrder (trace (continueConversation net messages None w)) = true.
Proof.
  intros t x. subst t x. repeat split.
  - eexists. eexists. split; [ | split].
    + rewrite continueConversation_trace. unfold cooldownTrace, cooldownWait.
      destruct (_ <? _); rewrite <- app_assoc; reflexivity.
    + destruct userImage; lia.
    + destruct (outcome (completionReply net)); reflexivity.
  - rewrite continueConversation_run.
    destruct (outcome (completionReply net)); reflexivity.
  - rewrite continueConversation_trace. unfold cooldownTrace.
    destruct (_ <? _), (outcome (completionReply net)); reflexivity.
  - rewrite continueConversation_trace. unfold cooldownTrace, specifiedOrder.
    destruct (_ <? _), (outcome (completionReply net)); reflexivity.
Qed.

(** ** Validation *)

(** C4.  In every state of the chat, [sendMessage] with blank text and no
    image fails with the "Empty Message" notice and changes nothing: the
    chat state (messages, input, image, flags), the clock and the throttle
    fields are returned as they were, and no request is issued. *)
Theorem blank_turn_rejected (net : Net) (c : Chat) (w : World) :
  trim (currentMessage c) = [] ->
  chatImage c = None ->
  sendMessage net c w = (Fulfilled c, w, [Toast (str "Empty Message")]).
Proof.
  intros Htext Himage. apply sendMessage_empty_run.
  unfold validInput. now rewrite Htext, Himage.
Qed.

Lemma blank_turn_rejected_witness :
  let c := mkChat [mkMessage assistant (str "Hello") (Some 1000000)]
                  (str "   ") None false true in
  let w := mkWorld 1003000 0 5000 in
  let net := mkNet 0 (mkReply 1 (Fulfilled (str "a")))
                     (mkReply 1 (Fulfilled (str "b"))) in
  trim (currentMessage c) = []
  /\ chatImage c = None
  /\ sendMessage net c w = (Fulfilled c, w, [Toast (str "Empty Message")]).
Proof.
  intros c w net.
  split; [reflexivity | split; [reflexivity | ]].
  apply (blank_turn_rejected net c w); reflexivity.
Defined.

(** ** Trimming *)

Lemma trimStart_split (s : jsstring) :
  exists pre,
    s = pre ++ trimStart s
    /\ forallb isWhiteSpace pre = true
    /\ match trimStart s with
       | c :: _ => isWhiteSpace c = false
       | [] => True
       end.
Proof.
  induction s as [ | c r (pre & Heq & Hpre & Hhead)].
  - exists []. repeat split.
  - cbn [trimStart]. destruct (isWhiteSpace c) eqn:Hc.
    + exists (c :: pre). cbn [app forallb]. rewrite Hc, Hpre.
      repeat split; [now f_equal | exact Hhead].
    + exists []. repeat split. exact Hc.
Qed.

Lemma forallb_rev {A} (p : A -> bool) (l : list A) :
  forallb p l = true -> forallb p (rev l) = true.
Proof.
  rewrite !forallb_forall. intros H x Hx. apply H. now apply in_rev.
Qed.

Lemma trimEnd_split (s : jsstring) :
  exists post,
    s = trimEnd s ++ post
    /\ forallb isWhiteSpace post = true
    /\ match rev (trimEnd s) with
       | c :: _ => isWhiteSpace c = false
       | [] => True
       end.
Proof.
  destruct (trimStart_split (rev s)) as (pre & Heq & Hpre & Hhead).
  exists (rev pre). unfold trimEnd. rewrite rev_involutive.
  repeat split.
  - rewrite <- rev_app_distr, <- Heq. symmetry. apply rev_involutive.
  - now apply forallb_rev.
  - exact Hhead.
Qed.

(** [trim] removes a run of white space at each end and nothing else, and
    what is left neither starts nor ends with white space. *)
Lemma trim_split (s : jsstring) :
  exists pre post,
    s = pre ++ trim s ++ post
    /\ forallb isWhiteSpace pre = true
    /\ forallb isWhiteSpace post = true
    /\ match trim s with
       | c :: _ => isWhiteSpace c = false
       | [] => True
       end
    /\ match rev (trim s) with
       | c :: _ => isWhiteSpace c = false
       | [] => True
       end.
Proof.
  destruct (trimStart_split s) as (pre & Heq & Hpre & Hhead).
  destruct (trimEnd_split (trimStart s)) as (post & Heq' & Hpost & Hlast).
  exists pre, post. unfold trim. repeat split; try assumption.
  - now rewrite <- Heq'.
  - rewrite Heq' in Hhead.
    destruct (trimEnd (trimStart s)); [exact I | exact Hhead].
Qed.

(** C10.  For every call of [sendMessage] that passes the check, the user
    message appended to the chat has as content the typed text with the
    white space at its two ends removed, not the text as typed; when the
    text is white space only (and an image is attached) that content is
    empty. *)
Theorem user_message_trimmed (net : Net) (c : Chat) (w : World) :
  validInput (currentMessage c) (chatImage c) = true ->
  exists c' body rest,
    value (sendMessage net c w) = Fulfilled c'
    /\ chatMessages c'
       = chatMessages c ++ mkMessage user body (Some (clock w)) :: rest
    /\ body = trim (currentMessage c)
    /\ (exists pre post,
          currentMessage c = pre ++ body ++ post
          /\ forallb isWhiteSpace pre = true
          /\ forallb isWhiteSpace post = true
          /\ match body with c :: _ => isWhiteSpace c = false | [] => True end
          /\ match rev body with c :: _ => isWhiteSpace c = false | [] => True end)
    /\ (forallb isWhiteSpace (currentMessage c) = true -> body = []).
Proof.
  intros Hvalid.
  pose proof (sendMessage_run net c w Hvalid) as Hrun. cbv zeta in Hrun.
  destruct (value (continueConversation net
              (map apiMessage
                 (chatMessages c
                  ++ [mkMessage user (trim (currentMessage c)) (Some (clock w))]))
              (chatImage c) w)) as [response | e].
  - eexists. exists (trim (currentMessage c)). eexists.
    rewrite Hrun. cbn [value fst chatMessages].
    split; [reflexivity | ]. split; [rewrite <- app_assoc; reflexivity | ].
    split; [reflexivity | ]. split; [apply trim_split | apply trim_blank].
  - eexists. exists (trim (currentMessage c)). exists [].
    rewrite Hrun. cbn [value fst chatMessages].
    split; [reflexivity | ]. split; [reflexivity | ].
    split; [reflexivity | ]. split; [apply trim_split | apply trim_blank].
Qed.

Lemma user_message_trimmed_witness :
  let c := mkChat [mkMessage assistant (str "Hello") (Some 1000000)]
                  (str "  ") (Some (mkFile (str "me.jpg") (str "image/jpeg")))
                  false true in
  let w := mkWorld 1003000 0 5000 in
  let net := mkNet 0 (mkReply 1 (Fulfilled (str "a")))
                     (mkReply 1 (Fulfilled (str "b"))) in
  validInput (currentMessage c) (chatImage c) = true
  /\ exists c' body rest,
       value (sendMessage net c w) = Fulfilled c'
       /\ chatMessages c'
          = chatMessages c ++ mkMessage user body (Some (clock w)) :: rest
       /\ body = [].
Proof.
  intros c w net. split; [reflexivity | ].
  destruct (user_message_trimmed net c w eq_refl)
    as (c' & body & rest & Hv & Hm & _ & _ & Hblank).
  exists c', body, rest. split; [exact Hv | split; [exact Hm | ]].
  apply Hblank. reflexivity.
Defined.

(** ** Messages of a turn *)

Lemma step_send_mode (s : Session) (text : jsstring) (image : option File)
    (net : Net) :
  isMentalHealthMode (chat s) = true ->
  validInput text image = true ->
  isMentalHealthMode (chat (step s (Send text image net))) = true.
Proof.
  intros Hmode Hvalid. rewrite (step_send s text image net Hmode Hvalid).
  destruct (outcome (completionReply net)); reflexivity.
Qed.

Lemma step_send_messages (s : Session) (text : jsstring)
    (image : option File) (net : Net) :
  isMentalHealthMode (chat s) = true ->
  validInput text image = true ->
  exists t',
    chatMessages (chat (step s (Send text image net))) =
      chatMessages (chat s)
      ++ mkMessage user (trim text) (Some (clock (service s)))
         :: match outcome (completionReply net) with
            | Fulfilled reply => [mkMessage assistant reply (Some t')]
            | Rejected _ => []
            end.
Proof.
  intros Hmode Hvalid. rewrite (step_send s text image net Hmode Hvalid).
  eexists.
  destruct (outcome (completionReply net)); cbn [chat chatMessages].
  - rewrite <- app_assoc. reflexivity.
  - reflexivity.
Qed.

(** C5.  Over any sequence of turns with valid input the number of messages
    of the chat grows by exactly 2 for each turn whose completion request
    succeeds (the user message, then the assistant message) and by exactly 1
    for each turn whose request fails: the user message stays and no
    assistant message is appended. *)
Theorem turn_message_count (s : Session) (ops : list Op) :
  isMentalHealthMode (chat s) = true ->
  forallb validSend ops = true ->
  List.length (chatMessages (chat (run s ops)))
    = (List.length (chatMessages (chat s))
       + 2 * successes ops + failures ops)%nat
  /\ (forall text image net,
        validInput text image = true ->
        exists t',
          chatMessages (chat (step s (Send text image net))) =
            chatMessages (chat s)
            ++ mkMessage user (trim text) (Some (clock (service s)))
               :: match outcome (completionReply net) with
                  | Fulfilled reply => [mkMessage assistant reply (Some t')]
                  | Rejected _ => []
                  end).
Proof.
  intros Hmode Hvalid. split.
  - revert s Hmode Hvalid.
    induction ops as [ | o ops IH]; intros s Hmode Hvalid.
    + cbn. lia.
    + cbn [forallb] in Hvalid. apply andb_true_iff in Hvalid as [Ho Hops].
      destruct o as [r | text image net | | ms]; try discriminate.
      cbn [validSend] in Ho. cbn [run fold_left].
      pose proof (IH (step s (Send text image net))
                     (step_send_mode s text image net Hmode Ho) Hops) as Hrest.
      unfold run in Hrest. rewrite Hrest.
      destruct (step_send_messages s text image net Hmode Ho) as (t' & Hm).
      rewrite Hm, length_app.
      unfold successes, failures, succeeded. cbn [filter].
      destruct (outcome (completionReply net)); cbn [negb List.length]; lia.
  - intros text image net Ho. now apply step_send_messages.
Qed.

Lemma turn_message_count_witness :
  let s := run (initial 1000000) [Start (mkReply 200 (Fulfilled (str "Hello")))] in
  let ok := mkReply 300 (Fulfilled (str "I hear you")) in
  let ko := mkReply 300 (Rejected (mkThrown true (str "fetch failed"))) in
  let ops := [Send (str "I feel tired lately") None (mkNet 0 ok ok);
              Send (str "still there?") None (mkNet 5 ok ko);
              Send (str " again ") None (mkNet 0 ko ok)] in
  isMentalHealthMode (chat s) = true
  /\ forallb validSend ops = true
  /\ List.length (chatMessages (chat (run s ops))) = (1 + 2 * 2 + 1)%nat.
Proof.
  intros s ok ko ops.
  split; [reflexivity | split; [reflexivity | ]].
  exact (proj1 (turn_message_count s ops eq_refl eq_refl)).
Defined.

(** ** Opening the conversation *)




(** ** The prompt *)

Lemma fold_prompt (history : list Message) (acc : jsstring) :
  fold_left
    (fun fullPrompt msg =>
       fullPrompt ++ (nl ++ speaker msg ++ str ": " ++ content msg))
    history acc
  = acc ++ List.concat (map (fun msg => nl ++ speaker msg ++ str ": " ++ content msg)
                       history).
Proof.
  revert acc. induction history as [ | msg rest IH]; intros acc.
  - cbn [fold_left map List.concat]. now rewrite app_nil_r.
  - cbn [fold_left map List.concat]. rewrite IH. now rewrite <- app_assoc.
Qed.

Lemma turn_prompt (net : Net) (messages : list Message)
    (userImage : option File) (w : World) :
  completionPrompts (trace (continueConversation net messages userImage w))
    = [composePrompt (enhance userImage messages)].
Proof.
  rewrite continueConversation_trace. unfold cooldownTrace, completionPrompts.
  destruct (_ <? _), userImage, (outcome (completionReply net)); reflexivity.
Qed.


(** ** Images *)

(** A failure of the image-sentiment request never leaves the helper: it
    resolves to its fixed annotation, and the turn goes on to the completion
    request as it does when the helper succeeds. *)
Lemma annotation_failure_swallowed (net : Net) (messages : list Message)
    (img : File) (w : World) (e : Thrown) :
  outcome (sentimentReply net) = Rejected e ->
  value (analyzeImageSentiment img (sentimentReply net) w)
    = Fulfilled sentimentFallback
  /\ value (continueConversation net messages (Some img) w)
     = match outcome (completionReply net) with
       | Fulfilled text => Fulfilled (mkResponse text (Some sentimentFallback))
       | Rejected e' => Rejected e'
       end
  /\ completionPrompts (trace (continueConversation net messages (Some img) w))
     = [composePrompt (addImageContext messages)].
Proof.
  intros He. repeat split.
  - rewrite analyzeImageSentiment_run. unfold annotation. now rewrite He.
  - rewrite continueConversation_value. cbn [option_map]. unfold annotation.
    now rewrite He.
  - apply turn_prompt.
Qed.

Lemma findIndex_from_assistants (arr pre rest : list Message) (i : nat) :
  Forall (fun m => role m = assistant) pre ->
  findIndex_from userBeforeAssistant arr (pre ++ rest) i
    = findIndex_from userBeforeAssistant arr rest (i + List.length pre).
Proof.
  revert i. induction pre as [ | m pre IH]; intros i Hpre.
  - cbn [app List.length]. now rewrite Nat.add_0_r.
  - inversion Hpre as [ | ? ? Hm Hrest]; subst.
    cbn [app findIndex_from]. unfold userBeforeAssistant at 1. rewrite Hm.
    cbn [Role_eqb andb List.length]. rewrite (IH (S i) Hrest). f_equal. lia.
Qed.

Lemma updateAt_app {A} (f : A -> A) (pre : list A) (u : A) (rest : list A) :
  updateAt (List.length pre) f (pre ++ u :: rest) = pre ++ f u :: rest.
Proof.
  induction pre as [ | m pre IH]; [reflexivity | ].
  cbn [List.length app updateAt]. now rewrite IH.
Qed.

(** On the first turn of a conversation, where only assistant messages come
    before the new user message, the note lands on that message. *)
Lemma addImageContext_first_turn (pre : list Message) (u : Message) :
  Forall (fun m => role m = assistant) pre ->
  role u = user ->
  addImageContext (pre ++ [u]) = pre ++ [withPhotoNote u].
Proof.
  intros Hpre Hu. unfold addImageContext, findIndex.
  rewrite (findIndex_from_assistants (pre ++ [u]) pre [u] 0 Hpre).
  cbn [Nat.add findIndex_from]. unfold userBeforeAssistant.
  rewrite Hu, length_app. cbn [List.length Role_eqb andb].
  replace (List.length pre + 1 - 1)%nat with (List.length pre) by lia.
  rewrite Nat.eqb_refl. cbn [orb]. apply updateAt_app.
Qed.

(** Once a user message of the history has been answered by the assistant,
    the note lands on the first such message, whatever comes after it. *)
Lemma addImageContext_later_turn (pre : list Message) (u a : Message)
    (rest : list Message) :
  Forall (fun m => role m = assistant) pre ->
  role u = user ->
  role a = assistant ->
  addImageContext (pre ++ u :: a :: rest) = pre ++ withPhotoNote u :: a :: rest.
Proof.
  intros Hpre Hu Ha. unfold addImageContext, findIndex.
  rewrite (findIndex_from_assistants (pre ++ u :: a :: rest) pre
             (u :: a :: rest) 0 Hpre).
  cbn [Nat.add findIndex_from]. unfold userBeforeAssistant.
  rewrite Hu. cbn [Role_eqb andb].
  rewrite nth_error_app2 by lia.
  replace (List.length pre + 1 - List.length pre)%nat with 1%nat by lia.
  cbn [nth_error]. rewrite Ha. cbn [Role_eqb]. rewrite orb_true_r.
  apply updateAt_app.
Qed.

(** C7, on the code: a second turn that carries an image, with the
    image-sentiment request failing.  The failure is swallowed and the
    assistant replies, but the photo note is written into the first user
    message of the history (the one [findIndex] returns), not into the
    message just added; the message kept in the chat has no note. *)
Lemma photo_note_on_earlier_message :
  let c := mkChat [mkMessage assistant (str "Hello") (Some 1000000);
                   mkMessage user (str "I feel tired") (Some 1001000);
                   mkMessage assistant (str "Tell me more") (Some 1002000)]
                  (str "Here is my face")
                  (Some (mkFile (str "me.jpg") (str "image/jpeg")))
                  false true in
  let net := mkNet 0
               (mkReply 100 (Rejected (mkThrown true (str "fetch failed"))))
               (mkReply 100 (Fulfilled (str "Thank you"))) in
  let x := sendMessage net c (mkWorld 1010000 1001000 5000) in
  completionPrompts (trace x)
    = [composePrompt
         [mkMessage assistant (str "Hello") None;
          mkMessage user (str "I feel tired" ++ photoNote) None;
          mkMessage assistant (str "Tell me more") None;
          mkMessage user (str "Here is my face") None]]
  /\ value x
     = Fulfilled
         (mkChat [mkMessage assistant (str "Hello") (Some 1000000);
                  mkMessage user (str "I feel tired") (Some 1001000);
                  mkMessage assistant (str "Tell me more") (Some 1002000);
                  mkMessage user (str "Here is my face") (Some 1010000);
                  mkMessage assistant (str "Thank you") (Some 1010200)]
                 [] None false true).
Proof. vm_compute. split; reflexivity. Qed.

(** * Further properties of the controller *)

(** ** Shape of the conversation *)

Lemma noConsecutiveAssistants_app (l : list Message) (u : Message)
    (tail : list Message) :
  noConsecutiveAssistants l = true ->
  role u = user ->
  noConsecutiveAssistants (u :: tail) = true ->
  noConsecutiveAssistants (l ++ u :: tail) = true.
Proof.
  intros Hl Hu Htail. induction l as [ | x l IH]; [exact Htail | ].
  destruct l as [ | y l'].
  - cbn [app].
    change (noConsecutiveAssistants (x :: u :: tail))
      with (negb (Role_eqb (role x) assistant && Role_eqb (role u) assistant)
            && noConsecutiveAssistants (u :: tail))%bool.
    rewrite Htail, Hu. cbn [Role_eqb]. now rewrite andb_false_r.
  - change (noConsecutiveAssistants (x :: y :: l'))
      with (negb (Role_eqb (role x) assistant && Role_eqb (role y) assistant)
            && noConsecutiveAssistants (y :: l'))%bool in Hl.
    apply andb_true_iff in Hl as [Hxy Hrest].
    change (noConsecutiveAssistants ((x :: y :: l') ++ u :: tail))
      with (negb (Role_eqb (role x) assistant && Role_eqb (role y) assistant)
            && noConsecutiveAssistants ((y :: l') ++ u :: tail))%bool.
    rewrite Hxy. cbn [andb]. exact (IH Hrest).
Qed.

Lemma step_shape (s : Session) (o : Op) :
  conversationShape (chat s) -> conversationShape (chat (step s o)).
Proof.
  unfold conversationShape. intros [Halt Hhead].
  destruct o as [r | text image net | | ms];
    destruct (isMentalHealthMode (chat s)) eqn:Hmode.
  - cbn [step]. rewrite Hmode. rewrite Hmode. now split.
  - rewrite (step_start s r Hmode).
    destruct (outcome r); cbn [chat chatMessages isMentalHealthMode setLoading].
    + repeat split.
    + rewrite Hmode. now split.
  - destruct (validInput text image) eqn:Hvalid.
    + rewrite (step_send s text image net Hmode Hvalid).
      destruct (chatMessages (chat s)) as [ | m rest] eqn:Hm;
        [discriminate | ].
      destruct Hhead as [Hrole _].
      destruct (outcome (completionReply net));
        cbn [chat chatMessages isMentalHealthMode].
      * split.
        -- rewrite <- app_assoc. now apply noConsecutiveAssistants_app.
        -- cbn [app]. now split.
      * split.
        -- now apply noConsecutiveAssistants_app.
        -- cbn [app]. now split.
    + rewrite (step_send_blank s text image net Hmode Hvalid).
      cbn [chat]. destruct (typed_input text image (chat s)) as (_ & _ & Hm & Hd).
      rewrite Hm, Hd, Hmode. now split.
  - cbn [step]. rewrite Hmode, Hmode. now split.
  - cbn [step]. rewrite Hmode. now split.
  - cbn [step]. rewrite Hmode, Hmode. now split.
  - cbn [step chat]. rewrite Hmode. now split.
  - cbn [step chat]. rewrite Hmode. now split.
Qed.

Lemma run_shape (ops : list Op) (s : Session) :
  conversationShape (chat s) -> conversationShape (chat (run s ops)).
Proof.
  revert s. induction ops as [ | o ops IH]; intros s H; [exact H | ].
  cbn [run fold_left]. apply IH. now apply step_shape.
Qed.

(** ** Spacing of turns *)


Lemma stampsSpaced_app (floor last : Z) (a b : list Event) :
  stampsSpaced floor last (a ++ b) =
    match stampsSpaced floor last a with
    | Some last' => stampsSpaced floor last' b
    | None => None
    end.
Proof.
  revert last. induction a as [ | ev a IH]; intros last; [reflexivity | ].
  destruct ev as [ms | prev interval t | who t p | title];
    cbn [app stampsSpaced]; try apply IH.
  destruct (_ && _)%bool; [apply IH | reflexivity].
Qed.

Lemma stampsSpaced_quiet (floor last : Z) (tr : list Event) :
  forallb (fun ev => negb (isStamp ev)) tr = true ->
  stampsSpaced floor last tr = Some last.
Proof.
  induction tr as [ | ev tr IH]; [reflexivity | ].
  cbn [forallb]. intros H. apply andb_true_iff in H as [Hev Htr].
  destruct ev; cbn [stampsSpaced]; try exact (IH Htr). discriminate.
Qed.



(** ** What the handlers leave behind *)

(** X4.  The two handlers of the chat never let an error escape: whatever
    the network answers, [startMentalHealthMode] and [sendMessage] resolve,
    and once they have passed their checks they end with [loading] off. *)
Theorem handlers_always_resolve (r : Reply) (net : Net) (c : Chat) (w : World) :
  (exists c',
      value (startMentalHealthMode r c w) = Fulfilled c'
      /\ loading c' = false)
  /\ (exists c',
        value (sendMessage net c w) = Fulfilled c'
        /\ loading c'
           = if validInput (currentMessage c) (chatImage c)
             then false else loading c).
Proof.
  split.
  - rewrite startMentalHealthMode_run.
    destruct (outcome r); eexists; split; reflexivity.
  - destruct (validInput (currentMessage c) (chatImage c)) eqn:Hvalid.
    + rewrite (sendMessage_run net c w Hvalid).
      destruct (value (continueConversation _ _ _ _)); eexists; split;
        reflexivity.
    + rewrite (sendMessage_empty_run net c w Hvalid).
      eexists; split; reflexivity.
Qed.

(** X5.  What a turn leaves in the input area.  The typed text is always
    cleared.  When the completion request succeeds the attached image is
    cleared too; when it fails the image stays attached, so the input still
    passes the check and the user can send again. *)
Theorem turn_leaves_input (net : Net) (c : Chat) (w : World) :
  validInput (currentMessage c) (chatImage c) = true ->
  exists c',
    value (sendMessage net c w) = Fulfilled c'
    /\ currentMessage c' = []
    /\ isMentalHealthMode c' = isMentalHealthMode c
    /\ chatImage c'
       = match outcome (completionReply net) with
         | Fulfilled _ => None
         | Rejected _ => chatImage c
         end
    /\ validInput (currentMessage c') (chatImage c')
       = match outcome (completionReply net), chatImage c with
         | Rejected _, Some _ => true
         | _, _ => false
         end.
Proof.
  intros Hvalid. rewrite (sendMessage_run net c w Hvalid).
  rewrite continueConversation_value.
  destruct (outcome (completionReply net)); eexists;
    cbn [value fst currentMessage isMentalHealthMode chatImage];
    repeat split.
Qed.

Lemma turn_leaves_input_witness :
  let img := mkFile (str "me.jpg") (str "image/jpeg") in
  let c := mkChat [mkMessage assistant (str "Hello") (Some 1000000)]
                  (str "look") (Some img) false true in
  let net := mkNet 0 (mkReply 1 (Fulfilled (str "a")))
                     (mkReply 1 (Rejected (mkThrown true (str "fetch failed")))) in
  validInput (currentMessage c) (chatImage c) = true
  /\ exists c',
       value (sendMessage net c (mkWorld 1003000 0 5000)) = Fulfilled c'
       /\ currentMessage c' = []
       /\ chatImage c' = Some img.
Proof.
  intros img c net. split; [reflexivity | ].
  destruct (turn_leaves_input net c (mkWorld 1003000 0 5000) eq_refl)
    as (c' & Hv & Hm & _ & Hi & _).
  exists c'. repeat split; assumption.
Defined.

(** ** Where the photo note goes *)

Lemma findIndex_from_Some {A} (p : A -> nat -> list A -> bool)
    (arr rest : list A) (i k : nat) :
  findIndex_from p arr rest i = Some k ->
  exists pre x post,
    rest = pre ++ x :: post
    /\ k = (i + List.length pre)%nat
    /\ p x k arr = true.
Proof.
  revert i. induction rest as [ | y rest IH]; intros i H; [discriminate | ].
  cbn [findIndex_from] in H. destruct (p y i arr) eqn:Hp.
  - injection H as <-. exists [], y, rest. cbn [app List.length].
    rewrite Nat.add_0_r. now repeat split.
  - destruct (IH (S i) H) as (pre & x & post & -> & -> & Hx).
    exists (y :: pre), x, post. cbn [app List.length].
    split; [reflexivity | split; [lia | exact Hx]].
Qed.

Lemma findIndex_from_None {A} (p : A -> nat -> list A -> bool)
    (arr pre : list A) (x : A) (post : list A) (i : nat) :
  findIndex_from p arr (pre ++ x :: post) i = None ->
  p x (i + List.length pre)%nat arr = false.
Proof.
  revert i. induction pre as [ | y pre IH]; intros i H.
  - cbn [app findIndex_from List.length] in *. rewrite Nat.add_0_r.
    destruct (p x i arr); [discriminate | reflexivity].
  - cbn [app findIndex_from List.length] in *.
    destruct (p y i arr); [discriminate | ].
    rewrite Nat.add_succ_r. exact (IH (S i) H).
Qed.

(** X6.  The image step rewrites at most one message, and then a user
    message, by appending the photo note to its content; order, roles,
    time stamps and every other content stay as they were.  When the list
    ends with a user message, as every list [sendMessage] passes does,
    exactly one message is rewritten. *)
Theorem photo_note_touches_one_user_message (messages : list Message) :
  map role (addImageContext messages) = map role messages
  /\ map timestamp (addImageContext messages) = map timestamp messages
  /\ (addImageContext messages = messages
      \/ exists pre u post,
           messages = pre ++ u :: post
           /\ role u = user
           /\ addImageContext messages = pre ++ withPhotoNote u :: post)
  /\ (forall init final,
        messages = init ++ [final] ->
        role final = user ->
        exists pre u post,
          messages = pre ++ u :: post
          /\ role u = user
          /\ addImageContext messages = pre ++ withPhotoNote u :: post).
Proof.
  assert (Hfound : forall k,
            findIndex userBeforeAssistant messages = Some k ->
            exists pre u post,
              messages = pre ++ u :: post
              /\ role u = user
              /\ addImageContext messages = pre ++ withPhotoNote u :: post).
  { intros k Hk. unfold addImageContext. rewrite Hk.
    apply findIndex_from_Some in Hk as (pre & u & post & Hm & -> & Hp).
    exists pre, u, post. split; [exact Hm | ]. split.
    - unfold userBeforeAssistant in Hp. apply andb_true_iff in Hp as [Hr _].
      destruct (role u); [reflexivity | discriminate].
    - rewrite Hm. cbn [Nat.add]. apply updateAt_app. }
  assert (Hcases : addImageContext messages = messages
                   \/ exists pre u post,
                        messages = pre ++ u :: post
                        /\ role u = user
                        /\ addImageContext messages
                           = pre ++ withPhotoNote u :: post).
  { destruct (findIndex userBeforeAssistant messages) as [k | ] eqn:Hk.
    - right. now apply (Hfound k).
    - left. unfold addImageContext. now rewrite Hk. }
  repeat split.
  - destruct Hcases as [-> | (pre & u & post & Hm & _ & ->)]; [reflexivity | ].
    rewrite Hm, !map_app. reflexivity.
  - destruct Hcases as [-> | (pre & u & post & Hm & _ & ->)]; [reflexivity | ].
    rewrite Hm, !map_app. reflexivity.
  - exact Hcases.
  - intros init final Hm Hfinal.
    destruct (findIndex userBeforeAssistant messages) as [k | ] eqn:Hk;
      [now apply (Hfound k) | ].
    exfalso. unfold findIndex in Hk. rewrite Hm in Hk at 2.
    apply findIndex_from_None in Hk.
    unfold userBeforeAssistant in Hk. rewrite Hfinal, Hm, length_app in Hk.
    cbn [Nat.add List.length Role_eqb andb] in Hk.
    replace (List.length init + 1 - 1)%nat with (List.length init) in Hk by lia.
    rewrite Nat.eqb_refl in Hk. discriminate.
Qed.

Lemma photo_note_touches_one_user_message_witness :
  let messages := [mkMessage assistant (str "Hello") None;
                   mkMessage user (str "hi") None] in
  exists pre u post,
    messages = pre ++ u :: post
    /\ role u = user
    /\ addImageContext messages = pre ++ withPhotoNote u :: post.
Proof.
  intros messages.
  exact (proj2 (proj2 (proj2 (photo_note_touches_one_user_message messages)))
           [mkMessage assistant (str "Hello") None]
           (mkMessage user (str "hi") None) eq_refl eq_refl).
Defined.

(** ** What the prompt carries *)

Lemma includes_nil (hay : jsstring) : includes hay [] = true.
Proof. destruct hay; reflexivity. Qed.

Lemma startsWith_app (s rest : jsstring) : startsWith s (s ++ rest) = true.
Proof.
  induction s as [ | c s IH]; [reflexivity | ].
  cbn [app startsWith]. now rewrite N.eqb_refl, IH.
Qed.

Lemma includes_prefix (s rest : jsstring) : includes (s ++ rest) s = true.
Proof.
  destruct s as [ | c s]; [apply includes_nil | ].
  change (includes ((c :: s) ++ rest) (c :: s))
    with (startsWith (c :: s) ((c :: s) ++ rest)
          || includes (s ++ rest) (c :: s))%bool.
  now rewrite startsWith_app.
Qed.

Lemma includes_skip (before hay needle : jsstring) :
  includes hay needle = true -> includes (before ++ hay) needle = true.
Proof.
  intros H. induction before as [ | c before IH]; [exact H | ].
  cbn [app includes]. rewrite IH. apply orb_true_r.
Qed.

Lemma includes_middle (before s after : jsstring) :
  includes (before ++ s ++ after) s = true.
Proof. apply includes_skip, includes_prefix. Qed.

(** X7.  The prompt carries the history verbatim: the content of every
    message of the list, as long as it is, occurs in the composed prompt,
    with nothing escaped or cut. *)
Theorem prompt_carries_every_message (messages : list Message) :
  forallb (fun msg => includes (composePrompt messages) (content msg))
          messages = true.
Proof.
  apply forallb_forall. intros msg Hin.
  destruct (in_split msg messages Hin) as (l1 & l2 & ->).
  unfold composePrompt. rewrite fold_prompt, map_app, concat_app.
  cbn [map List.concat]. rewrite <- !app_assoc.
  rewrite (app_assoc preamble), (app_assoc _ nl), (app_assoc _ (speaker msg)),
          (app_assoc _ (str ": ")).
  apply includes_middle.
Qed.

(** ** Handlers that never run *)

(** X8.  The two inner [catch] blocks of the image step of
    [continueConversation] are dead: [analyzeImageSentiment] resolves
    whatever its request does, so no trace of a turn holds the "Image
    Processing" warning, the only notice a turn can show is one of the two
    failure notices of the completion request, and the analysis a turn
    returns is the helper's own result, never the inner fallback. *)
Theorem image_step_never_warns (net : Net) (messages : list Message)
    (userImage : option File) (w w' : World) :
  let x := continueConversation net messages userImage w in
  existsb (isToastTitled (str "Image Processing")) (trace x) = false
  /\ filter isToast (trace x)
     = match outcome (completionReply net) with
       | Fulfilled _ => []
       | Rejected e =>
           [Toast (if isRateLimit e
                   then str "Service Rate Limit Reached"
                   else str "Conversation Error")]
       end
  /\ match userImage, value x with
     | Some img, Fulfilled response =>
         value (analyzeImageSentiment img (sentimentReply net) w')
           = Fulfilled (annotation img (sentimentReply net))
         /\ imageAnalysis response = Some (annotation img (sentimentReply net))
         /\ startsWith (str "A photo")
              (caption (annotation img (sentimentReply net))) = true
         /\ startsWith (str "A photo") (caption conversationFallback) = false
     | None, Fulfilled response => imageAnalysis response = None
     | _, Rejected _ => True
     end.
Proof.
  cbv zeta. rewrite continueConversation_value, continueConversation_trace.
  unfold cooldownTrace. repeat split.
  - destruct (_ <? _), userImage, (outcome (completionReply net)) as [ | e];
      try reflexivity; destruct (isRateLimit e); reflexivity.
  - destruct (_ <? _), userImage, (outcome (completionReply net));
      reflexivity.
  - destruct userImage as [img | ], (outcome (completionReply net));
      try exact I; [ | reflexivity].
    cbn [option_map imageAnalysis]. repeat split.
    + now rewrite analyzeImageSentiment_run.
    + unfold annotation.
      destruct (outcome (sentimentReply net)); reflexivity.
Qed.

(** * Properties of the rest of the services and of the page *)

(** ** Configuration *)



(** ** The connection check *)

(** X10.  The connection check never throws.  It sends exactly one request,
    after the "Validating AI Connection" notice, shows exactly one verdict,
    and answers true exactly when the reply holds at least one choice; a
    rejected request, a falsy reply and a reply without choices all give
    false.  The page stores that answer in [isApiValid] and ends with
    [verifying] off. *)
Theorem connection_check (r : Settled Payload) (ix : Index) :
  let valid := match r with
               | Fulfilled (choicesOf (_ :: _)) => true
               | _ => false
               end in
  validateApiConnection r
    = (Fulfilled valid,
       [Notice (str "Validating AI Connection");
        Request validationPrompt 50;
        Notice match r with
               | Fulfilled (choicesOf (_ :: _)) => str "Hugging Face Connection Valid"
               | Fulfilled _ => str "Connection Invalid"
               | Rejected _ => str "Connection Failed"
               end])
  /\ fst (verifyApiConnection r ix)
     = Fulfilled (setVerifying false (setIsApiValid (Some valid) ix))
  /\ snd (verifyApiConnection r ix) = snd (validateApiConnection r).
Proof.
  destruct r as [[ | | [ | c cs]] | e], ix; repeat split.
Qed.

(** ** The text tab *)

(** X11.  The text tab.  With no text the handler shows "Error", sends
    nothing and changes nothing.  With text it sends exactly one request,
    whose prompt carries the text as typed; it stores a result exactly when
    the reply holds a choice, and then shows "Analysis Complete"; on every
    other reply it shows the notice of the service, then "Analysis Failed",
    and keeps the result it had.  It always resolves, with [loading] off. *)
Theorem text_tab (r : Settled Payload) (ix : Index) :
  if truthy (text ix)
  then
    exists ix',
      analyzeText r ix
        = (Fulfilled ix',
           Request (textSentimentPrompt (text ix)) 150
           :: match r with
              | Fulfilled (choicesOf (_ :: _)) =>
                  [Notice (str "Analysis Complete")]
              | _ =>
                  [Notice (str "Sentiment Analysis Error");
                   Notice (str "Analysis Failed")]
              end)
      /\ includes (textSentimentPrompt (text ix)) (text ix) = true
      /\ result ix'
         = match r with
           | Fulfilled (choicesOf (c :: _)) => Some (SentimentResult c)
           | _ => result ix
           end
      /\ loading (chatState ix') = false
      /\ text ix' = text ix
  else analyzeText r ix = (Fulfilled ix, [Notice (str "Error")]).
Proof.
  unfold analyzeText. destruct (truthy (text ix)) eqn:Htext; [ | reflexivity].
  cbn [negb].
  assert (Hinc : includes (textSentimentPrompt (text ix)) (text ix) = true).
  { unfold textSentimentPrompt. rewrite app_assoc. apply includes_middle. }
  unfold analyzeSentiment.
  destruct r as [[ | | [ | c cs]] | e], ix; eexists;
    (split; [reflexivity | split; [exact Hinc | repeat split]]).
Qed.

(** ** The document tab and the image-generation tab *)

(** X12.  The document tab and the image-generation tab cannot succeed: the
    services object offers neither [documentIntelligence] nor
    [gpt.generateImage], so with a non-empty input the handler shows its
    failure notice, and with an empty one "Error"; in both cases nothing is
    sent and the stored result stays as it was. *)
Theorem document_and_image_generation_fail (ix : Index) :
  analyzeDocument ix
    = (Fulfilled (if truthy (documentUrl ix)
                  then setPageLoading false (setPageLoading true ix)
                  else ix),
       [Notice (if truthy (documentUrl ix)
                then str "Analysis Failed" else str "Error")])
  /\ generateImage ix
     = (Fulfilled (if truthy (imagePrompt ix)
                   then setPageLoading false (setPageLoading true ix)
                   else ix),
        [Notice (if truthy (imagePrompt ix)
                 then str "Image Generation Failed" else str "Error")])
  /\ result (setPageLoading false (setPageLoading true ix)) = result ix.
Proof.
  unfold analyzeDocument, generateImage.
  destruct (truthy (documentUrl ix)), (truthy (imagePrompt ix));
    repeat split.
Qed.

(** ** The image tab *)

Lemma analyzeImageSentimentOf_run (imageInput : File + jsstring) (r : Reply)
    (w : World) :
  analyzeImageSentimentOf imageInput r w =
    (Fulfilled match outcome r with
               | Fulfilled text => mkImageAnalysis text (imageCaption imageInput)
               | Rejected _ => sentimentFallback
               end,
     mkWorld (clock w + Z.of_N (latency r)) (_lastRequestTime w)
             (_minRequestInterval w),
     [Call ImageSentiment (clock w) sentimentPrompt]).
Proof.
  destruct w as [c l m], r as [d [text | e]];
    unfold analyzeImageSentimentOf; exec; reflexivity.
Qed.

(** X13.  The image tab never reports a failure.  With neither a file nor a
    URL it shows "Error" and does nothing.  Otherwise it sends exactly one
    request, without any cooldown, and always ends with "Analysis
    Complete", [loading] off and a stored result: the text of the reply
    with the caption of the input, or, when the request fails, the fixed
    annotation of the helper.  A file is preferred to a URL. *)
Theorem image_tab_never_fails (r : Reply) (ix : Index) (w : World) :
  match imageFile ix, truthy (imageUrl ix) with
  | None, false =>
      analyzeImagePage r ix w = (Fulfilled ix, w, [Toast (str "Error")])
  | chosen, _ =>
      let imageInput := match chosen with
                        | Some file => inl file
                        | None => inr (imageUrl ix)
                        end in
      let analysis := match outcome r with
                      | Fulfilled text =>
                          mkImageAnalysis text (imageCaption imageInput)
                      | Rejected _ => sentimentFallback
                      end in
      analyzeImagePage r ix w
        = (Fulfilled
             (setPageLoading false
                (setResult (Some (ImageSentimentResult analysis))
                   (setPageLoading true ix))),
           mkWorld (clock w + Z.of_N (latency r)) (_lastRequestTime w)
                   (_minRequestInterval w),
           [Call ImageSentiment (clock w) sentimentPrompt;
            Toast (str "Analysis Complete")])
  end.
Proof.
  destruct ix as [cs tx file url durl ip res av ve].
  cbn [imageFile imageUrl].
  destruct file as [file | ], (truthy url) eqn:Hurl;
    unfold analyzeImagePage, analyzeImageSentimentOf;
    cbn [imageFile imageUrl setPageLoading]; rewrite ?Hurl;
    cbn [andb negb]; try reflexivity;
    destruct w as [c l m], r as [d [reply | e]]; exec; reflexivity.
Qed.

(** X14.  The caption of an image.  It always begins with "A photo".  For a
    file it names the file and, in brackets, its type, and it is the bare
    "A photo" exactly when the file has neither; a file with a type and no
    name gives "A photo of  (type)".  For a URL it is "A photo of URL
    image" whatever the URL.  On files it is the caption the chat uses. *)
Theorem caption_shape (file : File) (url : jsstring) :
  imageCaption (inl file) = photoCaption file
  /\ imageCaption (inl file)
     = str "A photo"
       ++ match file_name file, file_type file with
          | [], [] => []
          | name, [] => str " of " ++ name
          | name, type => str " of " ++ name ++ str " (" ++ type ++ str ")"
          end
  /\ (jsstring_eqb (imageCaption (inl file)) (str "A photo")
      = negb (truthy (file_name file) || truthy (file_type file)))
  /\ imageCaption (inr url) = str "A photo of URL image"
  /\ startsWith (str "A photo") (imageCaption (inl file)) = true.
Proof.
  repeat split.
  - unfold imageCaption.
    destruct (file_name file) as [ | a name], (file_type file) as [ | b type];
      reflexivity.
  - unfold imageCaption, jsstring_eqb.
    destruct (file_name file) as [ | a name], (file_type file) as [ | b type];
      cbn [truthy orb negb];
      match goal with
      | |- (if ?d then true else false) = _ =>
          destruct d as [Heq | Hne]; [ | try reflexivity]
      end;
      try reflexivity; try discriminate Heq.
    exfalso. apply Hne. reflexivity.
Qed.

(** ** Voices *)

Lemma insertBy_femaleFirst (x : VoiceInfo) (females others : list VoiceInfo) :
  Forall (fun v => isFemale v = true) females ->
  Forall (fun v => isFemale v = false) others ->
  insertBy femaleFirst x (females ++ others)
    = if isFemale x then x :: females ++ others else females ++ x :: others.
Proof.
  intros Hf Ho. induction Hf as [ | y females Hy Hf IH].
  - cbn [app]. destruct Ho as [ | y others Hy Ho].
    + cbn [insertBy]. now destruct (isFemale x).
    + cbn [insertBy]. unfold femaleFirst. rewrite Hy.
      now destruct (isFemale x).
  - cbn [app insertBy]. unfold femaleFirst at 1. rewrite Hy.
    destruct (isFemale x) eqn:Hx; cbn [andb negb Z.leb Z.compare];
      [reflexivity | ].
    now rewrite IH.
Qed.

Lemma sortBy_femaleFirst (l : list VoiceInfo) :
  sortBy femaleFirst l
    = filter isFemale l ++ filter (fun v => negb (isFemale v)) l.
Proof.
  induction l as [ | x l IH]; [reflexivity | ].
  unfold sortBy in *. cbn [fold_right]. rewrite IH.
  rewrite insertBy_femaleFirst.
  - cbn [filter]. now destruct (isFemale x).
  - apply Forall_forall. intros v Hv. now apply filter_In in Hv.
  - apply Forall_forall. intros v Hv. apply filter_In in Hv as [_ Hv].
    now apply negb_true_iff.
Qed.

(** X15.  The list of voices.  Without speech synthesis it is empty.
    Otherwise it holds every voice of the platform once, the voices whose
    lower-cased name contains one of the eight patterns first and the
    others after them, each group in the order of the platform. *)
Theorem female_voices_first (toLowerCase : jsstring -> jsstring)
    (voices : list Voice) :
  let infos := map (voiceInfo toLowerCase) voices in
  getAvailableVoices toLowerCase None = []
  /\ getAvailableVoices toLowerCase (Some voices)
     = filter isFemale infos ++ filter (fun v => negb (isFemale v)) infos
  /\ List.length (getAvailableVoices toLowerCase (Some voices))
     = List.length voices
  /\ map info_name (filter isFemale infos)
     = map voice_name
         (filter (fun voice =>
                    existsb (fun pattern =>
                               includes (toLowerCase (voice_name voice)) pattern)
                            femalePatterns)
                 voices).
Proof.
  cbv zeta. cbn [getAvailableVoices]. rewrite sortBy_femaleFirst.
  repeat split.
  - rewrite <- (length_map (voiceInfo toLowerCase) voices).
    generalize (map (voiceInfo toLowerCase) voices) as l.
    induction l as [ | x l IH]; [reflexivity | ].
    cbn [filter]. destruct (isFemale x); cbn [negb app List.length].
    + now rewrite IH.
    + rewrite length_app in *. cbn [List.length]. lia.
  - induction voices as [ | v voices IH]; [reflexivity | ].
    cbn [map filter]. cbn [voiceInfo isFemale].
    destruct (existsb _ femalePatterns); cbn [map]; now rewrite IH.
Qed.

(** * Properties of sessions over time *)

Lemma cooldownEnd_later (late : N) (w : World) :
  clock w <= cooldownEnd late w.
Proof.
  unfold cooldownEnd.
  destruct (Z.ltb_spec (clock w - _lastRequestTime w) (_minRequestInterval w)); lia.
Qed.

Lemma continueConversation_clock (net : Net) (messages : list Message)
    (userImage : option File) (w : World) :
  clock w <= clock (world (continueConversation net messages userImage w)).
Proof.
  rewrite continueConversation_run.
  pose proof (cooldownEnd_later (jitter net) w).
  destruct (outcome (completionReply net)), userImage; cbn [world fst snd clock];
    lia.
Qed.

Lemma timestampsWithin_bounds (lo hi : Z) (l : list Message) :
  timestampsWithin lo hi l = true -> lo <= hi.
Proof.
  revert lo. induction l as [ | m l IH]; intros lo H; cbn [timestampsWithin] in H.
  - now apply Z.leb_le.
  - destruct (timestamp m) as [t | ]; [ | discriminate].
    apply andb_true_iff in H as [Hlo Hrest]. apply Z.leb_le in Hlo.
    specialize (IH t Hrest). lia.
Qed.

Lemma timestampsWithin_later (lo hi hi' : Z) (l : list Message) :
  timestampsWithin lo hi l = true -> hi <= hi' ->
  timestampsWithin lo hi' l = true.
Proof.
  revert lo. induction l as [ | m l IH]; intros lo H Hle;
    cbn [timestampsWithin] in *.
  - apply Z.leb_le. apply Z.leb_le in H. lia.
  - destruct (timestamp m) as [t | ]; [ | discriminate].
    apply andb_true_iff in H as [Hlo Hrest]. rewrite Hlo. cbn [andb].
    now apply IH.
Qed.

Lemma timestampsWithin_app (lo hi hi' : Z) (l tail : list Message) :
  timestampsWithin lo hi l = true ->
  timestampsWithin hi hi' tail = true ->
  timestampsWithin lo hi' (l ++ tail) = true.
Proof.
  revert lo. induction l as [ | m l IH]; intros lo H Htail;
    cbn [app timestampsWithin] in *.
  - apply Z.leb_le in H.
    destruct tail as [ | x tail]; cbn [timestampsWithin] in *.
    + apply Z.leb_le. apply Z.leb_le in Htail. lia.
    + destruct (timestamp x) as [t | ]; [ | discriminate].
      apply andb_true_iff in Htail as [Hhi Hrest]. rewrite Hrest.
      apply Z.leb_le in Hhi.
      replace (lo <=? t) with true by (symmetry; apply Z.leb_le; lia).
      reflexivity.
  - destruct (timestamp m) as [t | ]; [ | discriminate].
    apply andb_true_iff in H as [Hlo Hrest]. rewrite Hlo. cbn [andb].
    now apply IH.
Qed.

Lemma step_timestamps (t0 : Z) (s : Session) (o : Op) :
  timestampsWithin t0 (clock (service s)) (chatMessages (chat s)) = true ->
  timestampsWithin t0 (clock (service (step s o)))
    (chatMessages (chat (step s o))) = true.
Proof.
  intros H. pose proof (timestampsWithin_bounds _ _ _ H) as Hle.
  destruct o as [r | text image net | | ms];
    destruct (isMentalHealthMode (chat s)) eqn:Hmode;
    try (cbn [step]; rewrite ?Hmode; exact H).
  - rewrite (step_start s r Hmode).
    destruct (outcome r); cbn [chat service clock chatMessages setLoading].
    + cbn [timestampsWithin timestamp]. rewrite Z.leb_refl.
      replace (t0 <=? clock (service s) + Z.of_N (latency r)) with true
        by (symmetry; apply Z.leb_le; lia).
      reflexivity.
    + apply (timestampsWithin_later _ _ _ _ H). lia.
  - destruct (validInput text image) eqn:Hvalid.
    + rewrite (step_send s text image net Hmode Hvalid).
      pose proof (continueConversation_clock net
                    (map apiMessage
                       (chatMessages (chat s)
                        ++ [mkMessage user (trim text)
                                      (Some (clock (service s)))]))
                    image (service s)) as Hclock.
      destruct (outcome (completionReply net));
        cbn [chat service chatMessages].
      * rewrite <- app_assoc.
        apply (timestampsWithin_app _ _ _ _ _ H).
        cbn [app timestampsWithin timestamp]. rewrite !Z.leb_refl.
        replace (clock (service s) <=? _) with true
          by (symmetry; apply Z.leb_le; exact Hclock).
        reflexivity.
      * apply (timestampsWithin_app _ _ _ _ _ H).
        cbn [timestampsWithin timestamp]. rewrite Z.leb_refl.
        replace (clock (service s) <=? _) with true
          by (symmetry; apply Z.leb_le; exact Hclock).
        reflexivity.
    + rewrite (step_send_blank s text image net Hmode Hvalid).
      cbn [chat service].
      destruct (typed_input text image (chat s)) as (_ & _ & Hm & _).
      now rewrite Hm.
  - cbn [step]. rewrite Hmode. cbn [chat service exitAssessmentMode
      chatMessages setChatImage setChatMessages timestampsWithin].
    now apply Z.leb_le.
  - cbn [step chat service clock]. apply (timestampsWithin_later _ _ _ _ H). lia.
  - cbn [step chat service clock]. apply (timestampsWithin_later _ _ _ _ H). lia.
Qed.

(** X16.  Time stamps of the conversation.  In every session reached from
    a page loaded at time [t0], every message of the chat carries a time
    stamp, the stamps never decrease along the conversation, and all lie
    between [t0] and the present time of the clock. *)
Theorem timestamps_in_order (t0 : Z) (ops : list Op) :
  let s := run (initial t0) ops in
  timestampsWithin t0 (clock (service s)) (chatMessages (chat s)) = true.
Proof.
  cbv zeta.
  assert (H : forall s,
            timestampsWithin t0 (clock (service s)) (chatMessages (chat s)) = true ->
            timestampsWithin t0 (clock (service (run s ops)))
              (chatMessages (chat (run s ops))) = true).
  { induction ops as [ | o ops IH]; intros s Hs; [exact Hs | ].
    cbn [run fold_left]. apply IH. now apply step_timestamps. }
  apply H. cbn. apply Z.leb_refl.
Qed.

(** * The conversation in the prompt *)

Lemma composePrompt_includes (messages : list Message) (m : Message)
    (c suffix : jsstring) :
  In m messages ->
  content m = c ++ suffix ->
  includes (composePrompt messages) c = true.
Proof.
  intros Hin Hc. destruct (in_split m messages Hin) as (l1 & l2 & ->).
  unfold composePrompt. rewrite fold_prompt, map_app, concat_app.
  cbn [map List.concat]. rewrite Hc, <- !app_assoc.
  rewrite (app_assoc preamble), (app_assoc _ nl), (app_assoc _ (speaker m)),
          (app_assoc _ (str ": ")).
  apply includes_middle.
Qed.

Lemma addImageContext_cases (messages : list Message) :
  addImageContext messages = messages
  \/ exists pre u post,
       messages = pre ++ u :: post
       /\ addImageContext messages = pre ++ withPhotoNote u :: post.
Proof.
  unfold addImageContext.
  destruct (findIndex userBeforeAssistant messages) as [k | ] eqn:Hk;
    [right | now left].
  apply findIndex_from_Some in Hk as (pre & u & post & Hm & -> & _).
  exists pre, u, post. split; [exact Hm | ].
  rewrite Hm. cbn [Nat.add]. apply updateAt_app.
Qed.

Lemma enhance_includes (image : option File) (messages : list Message)
    (m : Message) :
  In m messages ->
  includes (composePrompt (enhance image messages)) (content m) = true.
Proof.
  intros Hin.
  assert (Hsame : forall l, In m l -> includes (composePrompt l) (content m) = true)
    by (intros l Hl; apply (composePrompt_includes l m (content m) []);
        [exact Hl | now rewrite app_nil_r]).
  destruct image as [img | ]; cbn [enhance]; [ | now apply Hsame].
  destruct (addImageContext_cases messages)
    as [-> | (pre & u & post & Hm & ->)]; [now apply Hsame | ].
  rewrite Hm in Hin. apply in_app_or in Hin as [Hpre | [<- | Hpost]].
  - apply Hsame, in_or_app. now left.
  - apply (composePrompt_includes _ (withPhotoNote u) (content u) photoNote);
      [ | reflexivity].
    apply in_or_app. right. now left.
  - apply Hsame, in_or_app. right. now right.
Qed.

(** X17.  Every turn replays the conversation.  A turn that passes the
    check sends exactly one completion request, and its prompt holds, as
    written, the content of every message the chat showed before the turn
    (the user messages of failed turns among them) and the trimmed text of
    the turn itself, with or without an image. *)
Theorem turn_replays_conversation (net : Net) (c : Chat) (w : World) :
  validInput (currentMessage c) (chatImage c) = true ->
  exists prompt,
    completionPrompts (trace (sendMessage net c w)) = [prompt]
    /\ forallb (fun m => includes prompt (content m)) (chatMessages c) = true
    /\ includes prompt (trim (currentMessage c)) = true.
Proof.
  intros Hvalid.
  exists (composePrompt
            (enhance (chatImage c)
               (map apiMessage
                  (chatMessages c
                   ++ [mkMessage user (trim (currentMessage c))
                                 (Some (clock w))])))).
  split; [ | split].
  - rewrite (sendMessage_run net c w Hvalid).
    pose proof (turn_prompt net
                  (map apiMessage
                     (chatMessages c
                      ++ [mkMessage user (trim (currentMessage c))
                                    (Some (clock w))]))
                  (chatImage c) w) as Hp.
    destruct (value (continueConversation _ _ _ _)); cbn [trace snd].
    + exact Hp.
    + unfold completionPrompts, trace in *. rewrite flat_map_app, Hp.
      reflexivity.
  - apply forallb_forall. intros m Hm.
    change (content m) with (content (apiMessage m)).
    apply enhance_includes, in_map, in_or_app. now left.
  - change (trim (currentMessage c))
      with (content (apiMessage (mkMessage user (trim (currentMessage c))
                                           (Some (clock w))))).
    apply enhance_includes, in_map, in_or_app. right. now left.
Qed.

Lemma turn_replays_conversation_witness :
  let c := mkChat [mkMessage assistant (str "Hello") (Some 1000000);
                   mkMessage user (str "I feel tired") (Some 1001000)]
                  (str " still here ") None false true in
  let net := mkNet 0 (mkReply 1 (Fulfilled (str "a")))
                     (mkReply 1 (Fulfilled (str "b"))) in
  let w := mkWorld 1010000 1001000 5000 in
  validInput (currentMessage c) (chatImage c) = true
  /\ exists prompt,
       completionPrompts (trace (sendMessage net c w)) = [prompt]
       /\ includes prompt (str "I feel tired") = true
       /\ includes prompt (str "still here") = true.
Proof.
  intros c net w. split; [reflexivity | ].
  destruct (turn_replays_conversation net c w eq_refl)
    as (prompt & Hp & Hall & Hnew).
  exists prompt. split; [exact Hp | split; [ | exact Hnew]].
  cbn [forallb chatMessages c] in Hall.
  apply andb_true_iff in Hall as [_ Hall].
  apply andb_true_iff in Hall as [Hall _]. exact Hall.
Defined.

(** * The ratchet of the interval *)



(** * Handlers that overlap *)

(** ** Sessions as pages *)

Lemma play_app (p : Page) (a b : list Action) :
  play p (a ++ b) = play (play p a) b.
Proof. unfold play. apply fold_left_app. Qed.

Lemma schedule_step (s : Session) (o : Op) :
  play (pageOf s) (schedule o) = pageOf (step s o).
Proof.
  destruct o as [r | text image net | | ms].
  - destruct (isMentalHealthMode (chat s)) eqn:Hmode.
    + cbn [schedule play fold_left act pageOf shown step]. rewrite Hmode.
      cbn [act waiting nth_error]. reflexivity.
    + rewrite (step_start s r Hmode).
      cbn [schedule play fold_left act pageOf shown globals waiting logged].
      rewrite Hmode.
      cbn [act waiting app nth_error shown globals logged].
      unfold removeNth, elapse. cbn [firstn skipn app].
      destruct (outcome r); unfold pageOf; cbn [chat service history];
        rewrite <- app_assoc; destruct (chat s); reflexivity.
  - destruct (isMentalHealthMode (chat s)) eqn:Hmode.
    2: { cbn [step schedule]. rewrite Hmode.
         unfold play. rewrite !fold_left_app. cbn [fold_left act pageOf shown].
         rewrite Hmode. cbn [waiting nth_error].
         destruct image; cbn [fold_left act waiting nth_error]; reflexivity. }
    destruct (validInput text image) eqn:Hvalid.
    2: { rewrite (step_send_blank s text image net Hmode Hvalid).
         unfold play. cbn [schedule]. rewrite !fold_left_app. cbn [fold_left act pageOf shown].
         rewrite Hmode, Hvalid. cbn [waiting nth_error].
         destruct image; cbn [fold_left act waiting nth_error]; reflexivity. }
    rewrite (step_send s text image net Hmode Hvalid).
    cbv zeta. rewrite continueConversation_run. cbv zeta.
    unfold cooldownTrace, cooldownEnd, play, pageOf.
    destruct s as [[ms cur img ld md] [k l m] h].
    cbn [chat isMentalHealthMode] in Hmode. subst md.
    destruct net as [late [ds os] [dc oc]].
    cbn [chat service history jitter sentimentReply completionReply latency
         outcome clock _lastRequestTime _minRequestInterval schedule].
    destruct (k - l <? m) eqn:Hwait; destruct image as [file | ];
      destruct oc as [reply | e];
      cbn -[trim composePrompt addImageContext str isRateLimit Z.max Z.add
            Z.sub Z.ltb openingPrompt sentimentPrompt validInput];
      rewrite ?Hvalid, ?Hwait;
      cbn -[trim composePrompt addImageContext str isRateLimit Z.max Z.add
            Z.sub Z.ltb openingPrompt sentimentPrompt validInput].
    all: try (apply Z.ltb_lt in Hwait;
              replace (Z.max k (k + (m - (k - l)))) with (k + (m - (k - l)))
                by lia).
    all: unfold setLoading, setChatImage, setChatMessages, setCurrentMessage,
           elapse;
         cbn [chatMessages currentMessage chatImage loading isMentalHealthMode
              clock _lastRequestTime _minRequestInterval];
         rewrite <- ?app_assoc; cbn [app]; try reflexivity.
    all: destruct (isRateLimit e); reflexivity.
  - cbn [schedule play fold_left act pageOf shown step].
    destruct (isMentalHealthMode (chat s)); reflexivity.
  - reflexivity.
Qed.

Lemma schedule_run (ops : list Op) (s : Session) :
  play (pageOf s) (flat_map schedule ops) = pageOf (run s ops).
Proof.
  revert s. induction ops as [ | o ops IH]; intros s; [reflexivity | ].
  cbn [flat_map run fold_left]. rewrite play_app, schedule_step. apply IH.
Qed.

Lemma removeNth_split {A} (l : list A) (k : nat) (q : A) :
  nth_error l k = Some q ->
  exists l1 l2, l = l1 ++ q :: l2 /\ removeNth k l = l1 ++ l2.
Proof.
  revert k. induction l as [ | x l IH]; intros k H.
  - destruct k; discriminate.
  - destruct k as [ | k].
    + injection H as ->. exists [], l. now split.
    + destruct (IH k H) as (l1 & l2 & Hl & Hr).
      exists (x :: l1), l2. split.
      * cbn [app]. now f_equal.
      * unfold removeNth in *. cbn [firstn skipn app] in *. now f_equal.
Qed.

Lemma pending_removed (waiting : list Pending) (k : nat) (q : Pending)
    (P : Pending -> Prop) :
  nth_error waiting k = Some q ->
  Forall P waiting ->
  P q /\ Forall P (removeNth k waiting).
Proof.
  intros Hk Hall.
  destruct (removeNth_split waiting k q Hk) as (l1 & l2 & -> & ->).
  apply Forall_app in Hall as [H1 H2]. inversion H2; subst.
  split; [assumption | ]. apply Forall_app. now split.
Qed.

Lemma turnShape_messages (updatedMessages : list Message) :
  turnShape updatedMessages ->
  noConsecutiveAssistants updatedMessages = true
  /\ (forall a, noConsecutiveAssistants (updatedMessages ++ [a]) = true)
  /\ match updatedMessages with
     | m :: _ => role m = assistant
     | [] => False
     end
  /\ (forall a, match updatedMessages ++ [a] with
                | m :: _ => role m = assistant
                | [] => False
                end).
Proof.
  intros (before & final & -> & Hfinal & Halt & Hhead).
  repeat split.
  - now apply noConsecutiveAssistants_app.
  - intros a. rewrite <- app_assoc. apply noConsecutiveAssistants_app; trivial.
    cbn. rewrite Hfinal. reflexivity.
  - destruct before; [contradiction | exact Hhead].
  - intros a. destruct before; [contradiction | exact Hhead].
Qed.

Lemma afterCooldown_shape (updatedMessages : list Message)
    (userImage : option File) (p : Page) :
  turnShape updatedMessages -> pageShape p ->
  pageShape (afterCooldown updatedMessages userImage p).
Proof.
  intros Hu [Hc Hw]. unfold afterCooldown.
  destruct userImage; split; cbn [shown waiting]; trivial;
    apply Forall_app; split; trivial; now constructor.
Qed.

Lemma act_shape (p : Page) (a : Action) : pageShape p -> pageShape (act p a).
Proof.
  intros [Hc Hw]. pose proof Hc as [Halt Hhead].
  destruct a as [ | text image | | ms | k late | k r]; cbn [act].
  - destruct (isMentalHealthMode (shown p)) eqn:Hmode; [now split | ].
    split; cbn [shown waiting].
    + exact Hc.
    + apply Forall_app. split; trivial. now constructor.
  - destruct (isMentalHealthMode (shown p)) eqn:Hmode; [ | now split].
    destruct (validInput text image) eqn:Hvalid; [ | now split].
    destruct (typed_input text image (shown p)) as (_ & _ & Hm & Hd).
    rewrite Hm.
    assert (Hturn : turnShape (chatMessages (shown p)
                               ++ [mkMessage user (trim text)
                                     (Some (clock (globals p)))])).
    { exists (chatMessages (shown p)), (mkMessage user (trim text)
                                           (Some (clock (globals p)))).
      repeat split; trivial.
      destruct (chatMessages (shown p)); [congruence | exact Hhead]. }
    assert (Hchat : chatShape
              (setLoading true
                 (setCurrentMessage []
                    (setChatMessages
                       (chatMessages (shown p)
                        ++ [mkMessage user (trim text) (Some (clock (globals p)))])
                       (setChatImage image (setCurrentMessage text (shown p))))))).
    { destruct (turnShape_messages _ Hturn) as (H1 & _ & H3 & _).
      split; cbn [chatMessages setLoading setCurrentMessage setChatMessages];
        trivial.
      destruct (chatMessages (shown p) ++ _); [contradiction | exact H3]. }
    destruct (_ <? _).
    + split; cbn [shown waiting]; trivial.
      apply Forall_app. split; trivial. now constructor.
    + apply afterCooldown_shape; trivial. now split.
  - destruct (isMentalHealthMode (shown p)); [ | now split].
    split; cbn [shown waiting]; trivial. now split.
  - now split.
  - destruct (nth_error (waiting p) k) as [[ | due u img | u | u] | ] eqn:Hk;
      try now split.
    destruct (pending_removed _ _ _ pendingShape Hk Hw) as [Hq Hrest].
    apply afterCooldown_shape; trivial. now split.
  - destruct (nth_error (waiting p) k) as [[ | due u img | u | u] | ] eqn:Hk;
      try now split.
    + destruct (pending_removed _ _ _ pendingShape Hk Hw) as [_ Hrest].
      destruct (outcome r); split; cbn [shown waiting]; trivial.
      now split.
    + destruct (pending_removed _ _ _ pendingShape Hk Hw) as [Hq Hrest].
      split; cbn [shown waiting]; trivial.
      apply Forall_app. split; trivial. now constructor.
    + destruct (pending_removed _ _ _ pendingShape Hk Hw) as [Hq Hrest].
      destruct (turnShape_messages _ Hq) as (_ & H2 & _ & H4).
      destruct (outcome r) as [reply | e]; split; cbn [shown waiting]; trivial.
      split; cbn [chatMessages setLoading setChatImage setChatMessages].
      * apply H2.
      * specialize (H4 (mkMessage assistant reply
                          (Some (clock (elapse (Z.of_N (latency r)) (globals p)))))).
        destruct (u ++ _); [contradiction | exact H4].
Qed.

Lemma noTurns_filter (l : list Pending) :
  existsb isTurn l = false -> filter isTurn l = [].
Proof.
  induction l as [ | q l IH]; [reflexivity | ].
  cbn [existsb filter]. intros H. apply orb_false_iff in H as [Hq Hl].
  rewrite Hq. now apply IH.
Qed.

Lemma noTurns_timerDue (w : World) (l : list Pending) :
  existsb isTurn l = false -> Forall (timerDue w) l.
Proof.
  induction l as [ | q l IH]; [constructor | ].
  cbn [existsb]. intros H. apply orb_false_iff in H as [Hq Hl].
  constructor; [ | now apply IH]. destruct q; [exact I | discriminate ..].
Qed.

Lemma filter_empty_noTurns (l : list Pending) :
  List.length (filter isTurn l) = 0%nat -> existsb isTurn l = false.
Proof.
  induction l as [ | q l IH]; [reflexivity | ].
  cbn [existsb filter]. destruct (isTurn q); cbn [List.length orb];
    [discriminate | exact IH].
Qed.

Lemma turn_removed (l : list Pending) (k : nat) (q : Pending) :
  nth_error l k = Some q ->
  isTurn q = true ->
  (List.length (filter isTurn l) <= 1)%nat ->
  existsb isTurn (removeNth k l) = false.
Proof.
  intros Hk Hq Hle.
  destruct (removeNth_split l k q Hk) as (l1 & l2 & -> & ->).
  rewrite filter_app in Hle. cbn [filter] in Hle. rewrite Hq in Hle.
  rewrite length_app in Hle. cbn [List.length] in Hle.
  rewrite existsb_app. apply orb_false_iff.
  split; apply filter_empty_noTurns; lia.
Qed.

Lemma other_removed (l : list Pending) (k : nat) (q : Pending) :
  nth_error l k = Some q ->
  (List.length (filter isTurn (removeNth k l))
   <= List.length (filter isTurn l))%nat.
Proof.
  intros Hk.
  destruct (removeNth_split l k q Hk) as (l1 & l2 & -> & ->).
  rewrite !filter_app, !length_app. cbn [filter].
  destruct (isTurn q); cbn [List.length]; lia.
Qed.

Lemma stampsSpaced_snoc_quiet (floor last : Z) (tr quiet : list Event) (v : Z) :
  stampsSpaced floor last tr = Some v ->
  forallb (fun ev => negb (isStamp ev)) quiet = true ->
  stampsSpaced floor last (tr ++ quiet) = Some v.
Proof.
  intros H Hq. rewrite stampsSpaced_app, H. now apply stampsSpaced_quiet.
Qed.

Lemma stampsSpaced_snoc_stamp (floor last : Z) (tr : list Event)
    (v interval t : Z) :
  stampsSpaced floor last tr = Some v ->
  interval <= t - v -> floor <= t - v ->
  stampsSpaced floor last (tr ++ [Stamp v interval t]) = Some t.
Proof.
  intros H Hi Hf. rewrite stampsSpaced_app, H. cbn [stampsSpaced].
  rewrite Z.eqb_refl.
  replace (interval <=? t - v) with true by (symmetry; now apply Z.leb_le).
  replace (floor <=? t - v) with true by (symmetry; now apply Z.leb_le).
  reflexivity.
Qed.

Lemma afterCooldown_spaced (updatedMessages : list Message)
    (userImage : option File) (p : Page) :
  stampsSpaced 5000 0 (logged p) = Some (_lastRequestTime (globals p)) ->
  5000 <= _minRequestInterval (globals p) <= 10000 ->
  existsb isTurn (waiting p) = false ->
  spacedPage (afterCooldown updatedMessages userImage p).
Proof.
  intros Hs Hi Hw. unfold afterCooldown, spacedPage.
  destruct userImage; cbn [logged globals waiting];
    (split; [now apply stampsSpaced_snoc_quiet | ]);
    (split; [exact Hi | ]);
    rewrite filter_app, (noTurns_filter _ Hw);
    (split; [cbn; lia | ]);
    (apply Forall_app; split; [now apply noTurns_timerDue | ]);
    now repeat constructor.
Qed.

Lemma act_spaced (p : Page) (a : Action) :
  spacedPage p ->
  match a with
  | DoSend text image =>
      (isMentalHealthMode (shown p) && validInput text image
       && existsb isTurn (waiting p))%bool = false
  | _ => True
  end ->
  spacedPage (act p a).
Proof.
  intros (Hs & Hi & Hn & Hd) Hguard.
  destruct a as [ | text image | | ms | k late | k r]; cbn [act].
  - destruct (isMentalHealthMode (shown p)); [now repeat split | ].
    repeat split; cbn [logged globals waiting]; trivial; try lia.
    + now apply stampsSpaced_snoc_quiet.
    + rewrite filter_app, length_app. cbn. lia.
    + apply Forall_app. split; trivial. now repeat constructor.
  - destruct (isMentalHealthMode (shown p)); [ | now repeat split].
    destruct (validInput text image).
    2: { repeat split; cbn [logged globals waiting]; trivial; try lia.
         now apply stampsSpaced_snoc_quiet. }
    cbn [andb] in Hguard.
    destruct (Z.ltb_spec (clock (globals p) - _lastRequestTime (globals p))
                         (_minRequestInterval (globals p))) as [Hlt | Hge].
    + repeat split; cbn [logged globals waiting]; trivial; try lia.
      * now apply stampsSpaced_snoc_quiet.
      * rewrite filter_app, (noTurns_filter _ Hguard). cbn. lia.
      * apply Forall_app. split; trivial.
        constructor; [ | constructor]. cbn. lia.
    + apply afterCooldown_spaced; cbn [stampNow logged globals waiting
        _lastRequestTime _minRequestInterval clock]; trivial.
      apply stampsSpaced_snoc_stamp; trivial; lia.
  - destruct (isMentalHealthMode (shown p)); now repeat split.
  - now repeat split.
  - destruct (nth_error (waiting p) k) as [[ | due u img | u | u] | ] eqn:Hk;
      try now repeat split.
    destruct (pending_removed _ _ _ _ Hk Hd) as [Hdue _]. cbn in Hdue.
    apply afterCooldown_spaced; cbn [stampNow logged globals waiting
      _lastRequestTime _minRequestInterval clock]; trivial.
    + apply stampsSpaced_snoc_stamp; trivial; lia.
    + now apply (turn_removed _ _ _ Hk).
  - destruct (nth_error (waiting p) k) as [[ | due u img | u | u] | ] eqn:Hk;
      try now repeat split.
    + pose proof (other_removed _ _ _ Hk) as Hle.
      destruct (pending_removed _ _ _ _ Hk Hd) as [_ Hrest].
      destruct (outcome r); repeat split;
        cbn [logged globals waiting elapse _lastRequestTime
             _minRequestInterval]; trivial; try lia;
        now apply stampsSpaced_snoc_quiet.
    + pose proof (turn_removed _ _ _ Hk eq_refl Hn) as Hnone.
      repeat split;
        cbn [logged globals waiting elapse _lastRequestTime
             _minRequestInterval]; trivial; try lia.
      * now apply stampsSpaced_snoc_quiet.
      * rewrite filter_app, (noTurns_filter _ Hnone). cbn. lia.
      * apply Forall_app. split; [now apply noTurns_timerDue | ].
        now repeat constructor.
    + pose proof (turn_removed _ _ _ Hk eq_refl Hn) as Hnone.
      destruct (outcome r) as [reply | e]; [ | destruct (isRateLimit e)];
        repeat split;
        cbn [logged globals waiting elapse _lastRequestTime
             _minRequestInterval clock]; trivial; try lia;
        try (now apply stampsSpaced_snoc_quiet);
        try (rewrite (noTurns_filter _ Hnone); cbn; lia);
        try (now apply noTurns_timerDue).
Qed.

Lemma play_spaced (actions : list Action) (p : Page) :
  spacedPage p ->
  unhurried p actions = true ->
  spacedPage (play p actions).
Proof.
  revert p. induction actions as [ | a actions IH]; intros p Hp Hu;
    [exact Hp | ].
  cbn [unhurried] in Hu. apply andb_true_iff in Hu as [Ha Hrest].
  cbn [play fold_left]. apply IH; [ | exact Hrest].
  apply act_spaced; [exact Hp | ].
  destruct a; trivial. now apply negb_true_iff.
Qed.

Lemma unhurried_app (p : Page) (a b : list Action) :
  unhurried p (a ++ b) = (unhurried p a && unhurried (play p a) b)%bool.
Proof.
  revert p. induction a as [ | x a IH]; intros p; [reflexivity | ].
  cbn [app unhurried play fold_left]. rewrite IH. unfold play.
  now rewrite andb_assoc.
Qed.

Lemma schedule_unhurried (ops : list Op) (s : Session) :
  unhurried (pageOf s) (flat_map schedule ops) = true.
Proof.
  revert s. induction ops as [ | o ops IH]; intros s; [reflexivity | ].
  cbn [flat_map]. rewrite unhurried_app, schedule_step, IH, andb_true_r.
  destruct o as [r | text image net | | ms]; try reflexivity.
  cbn [schedule app unhurried pageOf waiting existsb].
  rewrite andb_false_r. cbn [negb andb].
  destruct image; reflexivity.
Qed.

Lemma loaded_shape (t0 : Z) : pageShape (loaded t0).
Proof. repeat split. constructor. Qed.

Lemma play_shape (actions : list Action) (p : Page) :
  pageShape p -> pageShape (play p actions).
Proof.
  revert p. induction actions as [ | a actions IH]; intros p H; [exact H | ].
  cbn [play fold_left]. apply IH. now apply act_shape.
Qed.

Lemma loaded_spaced (t0 : Z) : spacedPage (loaded t0).
Proof. repeat split; cbn; try lia. constructor. Qed.

(** ** The shape of the conversation *)

(** X1.  However the handlers of the page overlap, the chat never holds two
    assistant messages in a row, a chat that is not empty begins with an
    assistant message, and the chat is not empty while the assessment mode
    is on.  When every handler is left to finish before the next action,
    the chat is moreover empty exactly when the mode is off; with an exit
    during a waiting turn it is not: the reply of that turn then fills the
    chat with the mode off. *)
Theorem conversation_shape (t0 : Z) (actions : list Action) (ops : list Op) :
  let c := shown (play (loaded t0) actions) in
  let serial := shown (play (loaded t0) (flat_map schedule ops)) in
  let left := shown (play (loaded 1000000)
                       [DoStart; Answer 0 (mkReply 200 (Fulfilled (str "Hello")));
                        DoSend (str "hi") None; DoExit;
                        Answer 0 (mkReply 300 (Fulfilled (str "I hear you")))]) in
  (noConsecutiveAssistants (chatMessages c) = true
   /\ match chatMessages c with
      | [] => isMentalHealthMode c = false
      | m :: _ => role m = assistant
      end)
  /\ (noConsecutiveAssistants (chatMessages serial) = true
      /\ match chatMessages serial with
         | [] => isMentalHealthMode serial = false
         | m :: _ => role m = assistant /\ isMentalHealthMode serial = true
         end)
  /\ (isMentalHealthMode left = false
      /\ map role (chatMessages left) = [assistant; user; assistant]).
Proof.
  cbv zeta. split; [ | split; [ | vm_compute; split; reflexivity]].
  - exact (proj1 (play_shape actions (loaded t0) (loaded_shape t0))).
  - change (loaded t0) with (pageOf (initial t0)). rewrite schedule_run.
    cbn [pageOf shown].
    apply (run_shape ops (initial t0)). now split.
Qed.

(** ** The spacing of turns *)

(** Two turns sent during the same wait both read the old stamp; when their
    timers fire they stamp one after the other, here at the same time. *)
Lemma overlapping_turns_stamp_together :
  let ok := mkReply 300 (Fulfilled (str "I hear you")) in
  let p := play (loaded 1000000)
             [DoStart; Answer 0 (mkReply 200 (Fulfilled (str "Hello")));
              DoSend (str "one") None; Answer 0 ok;
              Wait 200;
              DoSend (str "two") None; DoSend (str "three") None;
              Wake 0 0; Wake 0 0] in
  filter isStamp (logged p)
    = [Stamp 0 5000 1000200; Stamp 1000200 5000 1005200;
       Stamp 1005200 5000 1005200]
  /\ stampsSpaced 5000 0 (logged p) = None.
Proof. vm_compute. split; reflexivity. Qed.

(** X2.  As long as no turn is sent while another one is suspended, the
    turns are spaced, whatever else overlaps (openings, exits, time
    passing): each cooldown stamp overwrites the time the turn before it
    stamped, and comes at least the interval then in force, and so at
    least 5000 ms, after it; [_lastRequestTime] holds the time of the last
    stamp.  Sessions whose handlers run one at a time are of that kind. *)
Theorem turns_spaced (t0 : Z) (actions : list Action) (ops : list Op) :
  unhurried (loaded t0) actions = true ->
  let p := play (loaded t0) actions in
  let q := play (loaded t0) (flat_map schedule ops) in
  stampsSpaced 5000 0 (logged p) = Some (_lastRequestTime (globals p))
  /\ unhurried (loaded t0) (flat_map schedule ops) = true
  /\ stampsSpaced 5000 0 (logged q) = Some (_lastRequestTime (globals q)).
Proof.
  intros Hu. cbv zeta.
  assert (Hserial : unhurried (loaded t0) (flat_map schedule ops) = true)
    by apply (schedule_unhurried ops (initial t0)).
  split; [ | split; [exact Hserial | ]].
  - exact (proj1 (play_spaced actions (loaded t0) (loaded_spaced t0) Hu)).
  - exact (proj1 (play_spaced _ (loaded t0) (loaded_spaced t0) Hserial)).
Qed.

Lemma turns_spaced_witness :
  let ok := mkReply 300 (Fulfilled (str "I hear you")) in
  let ko := mkReply 300 (Rejected (mkThrown true (str "HTTP error 429"))) in
  let actions := [DoStart; Answer 0 (mkReply 200 (Fulfilled (str "Hello")));
                  DoSend (str "one") None; Answer 0 ko;
                  Wait 200;
                  DoSend (str "two") None; DoExit; DoStart;
                  Wake 0 7; Answer 0 ok; Answer 0 ok] in
  let p := play (loaded 1000000) actions in
  unhurried (loaded 1000000) actions = true
  /\ filter isStamp (logged p)
     = [Stamp 0 5000 1000200; Stamp 1000200 10000 1010207]
  /\ stampsSpaced 5000 0 (logged p) = Some (_lastRequestTime (globals p)).
Proof.
  intros ok ko actions p.
  split; [reflexivity | split; [reflexivity | ]].
  exact (proj1 (turns_spaced 1000000 actions [] eq_refl)).
Defined.

(** ** Sessions are the pages whose handlers do not overlap *)

(** X18.  When every handler is left to finish before the next action (the
    action that starts it is followed at once by the firing of its timer
    and the answers to its requests), the page ends with nothing suspended
    and with the chat, the clock, the throttle fields and the log of the
    session in which each handler runs as a whole. *)
Theorem serial_page_is_session (t0 : Z) (ops : list Op) :
  let p := play (loaded t0) (flat_map schedule ops) in
  let s := run (initial t0) ops in
  shown p = chat s
  /\ globals p = service s
  /\ logged p = history s
  /\ waiting p = [].
Proof.
  cbv zeta. change (loaded t0) with (pageOf (initial t0)).
  rewrite schedule_run. repeat split.
Qed.
